(** * Pet-Calculator: the arithmetic state machine of [main.py]

    A shallow embedding of the calculator logic of [CalculatorApp]
    (state fields, event handlers, [_apply_operator], [_format_number],
    [_update_display]) together with the Python built-ins the handlers
    rely on: [str] operations, [float(str)], float arithmetic and the
    ["%g"], ["%f"], ["%e"] conversions of a float.

    - A Python [str] is a list of Unicode code points.
    - A Python [float] is an IEEE-754 binary64 value, taken from the
      standard library's [SpecFloat] (precision 53, [emax] 1024).
    - Python exceptions are values of an error monad; [try]/[except]
      is [try_except]. *)

From Stdlib Require Import ZArith List Bool Lia String Ascii.
From Stdlib Require Import SpecFloat.
Import ListNotations.
Local Open Scope list_scope.
Local Open Scope Z_scope.

(** ** Python strings *)

Module PyStr.

Definition char := Z.
Definition pystr := list char.

(** An ASCII literal as a Python string. *)
Definition py (s : string) : pystr :=
  map (fun a => Z.of_N (N_of_ascii a)) (list_ascii_of_string s).

Fixpoint str_eqb (s t : pystr) : bool :=
  match s, t with
  | [], [] => true
  | c :: s', d :: t' => (c =? d) && str_eqb s' t'
  | _, _ => false
  end.

(** [c in s] for a one-character string [c]. *)
Definition char_in (c : char) (s : pystr) : bool := existsb (Z.eqb c) s.

(** [len(s)] *)
Definition len (s : pystr) : Z := Z.of_nat (List.length s).

(** [s.startswith(p)] *)
Fixpoint startswith (s p : pystr) : bool :=
  match p, s with
  | [], _ => true
  | d :: p', c :: s' => (c =? d) && startswith s' p'
  | _ :: _, [] => false
  end.

(** [s.rstrip(chars)]: drop the longest suffix made of characters of [chars]. *)
Fixpoint rstrip (chars s : pystr) : pystr :=
  match s with
  | [] => []
  | c :: t =>
      match rstrip chars t with
      | [] => if char_in c chars then [] else [c]
      | t' => c :: t'
      end
  end.

(** [s.replace(old, new)] for one-character [old] and [new]. *)
Definition replace_char (old new : char) (s : pystr) : pystr :=
  map (fun c => if c =? old then new else c) s.

(** [s[1:]] and [s[:-1]] *)
Definition drop_first (s : pystr) : pystr := tl s.
Definition drop_last (s : pystr) : pystr := removelast s.

(** Number of occurrences of a character. *)
Definition count_char (c : char) (s : pystr) : nat := count_occ Z.eq_dec s c.

End PyStr.
Export PyStr.

(** The number of points in a text. *)
Abbreviation dots s := (count_char 46%Z s).

(** ** Exceptions *)

Inductive exn : Type := ValueError | ZeroDivisionError.

Definition exn_eqb (a b : exn) : bool :=
  match a, b with
  | ValueError, ValueError | ZeroDivisionError, ZeroDivisionError => true
  | _, _ => false
  end.

Inductive result (A : Type) : Type :=
| Ok (a : A)
| Raise (e : exn).
Arguments Ok {A} a.
Arguments Raise {A} e.

Definition bind {A B} (c : result A) (k : A -> result B) : result B :=
  match c with
  | Ok a => k a
  | Raise e => Raise e
  end.

Notation "x <- c ;; k" := (bind c (fun x => k))
  (at level 61, c at next level, right associativity).

(** [try: body / except e: handler] *)
Definition try_except {A} (body : result A) (e : exn) (handler : result A)
  : result A :=
  match body with
  | Ok a => Ok a
  | Raise e' => if exn_eqb e e' then handler else Raise e'
  end.

(** ** Python floats (binary64) *)

Definition prec : Z := 53.
Definition emax : Z := 1024.

Definition float := spec_float.

Definition float_add : float -> float -> float := SFadd prec emax.
Definition float_sub : float -> float -> float := SFsub prec emax.
Definition float_mul : float -> float -> float := SFmul prec emax.

(** [a / b]: CPython's [float_div] raises when [b == 0.0] (either zero),
    whatever [a] is, and divides otherwise. *)
Definition float_truediv (a b : float) : result float :=
  match b with
  | S754_zero _ => Raise ZeroDivisionError
  | _ => Ok (SFdiv prec emax a b)
  end.

(** [a == b] and [a != b] *)
Definition float_eq (a b : float) : bool := SFeqb a b.
Definition float_ne (a b : float) : bool := negb (SFeqb a b).

Definition float_of_Z (n : Z) : float := binary_normalize prec emax n 0 false.

Definition pos_inf : float := S754_infinity false.
Definition neg_inf : float := S754_infinity true.
Definition nan : float := S754_nan.
Definition zero : float := S754_zero false.

Definition is_finite (v : float) : bool :=
  match v with
  | S754_zero _ | S754_finite _ _ _ => true
  | _ => false
  end.

(** ** Decimal rendering of integers and of exact binary values *)

Definition digit_char (d : Z) : char := 48 + d.

Fixpoint digits_acc (fuel : nat) (n : Z) (acc : pystr) : pystr :=
  match fuel with
  | O => acc
  | S f =>
      if n <? 10 then digit_char (n mod 10) :: acc
      else digits_acc f (n / 10) (digit_char (n mod 10) :: acc)
  end.

(** The decimal numeral of [n >= 0]; [log2 n + 1] steps are enough since a
    number has no more decimal than binary digits. *)
Definition decimal (n : Z) : pystr :=
  digits_acc (S (Z.to_nat (Z.log2 n))) n [].

(** Left padding with ['0'] up to [width] characters. *)
Definition zfill (width : Z) (s : pystr) : pystr :=
  repeat 48 (Z.to_nat (width - len s)) ++ s.

(** A non-negative rational [n / d] with [d > 0]. *)
Definition ratio : Type := Z * Z.

(** The magnitude [m * 2^e] of a finite float. *)
Definition ratio_of_finite (m : positive) (e : Z) : ratio :=
  if 0 <=? e then (Zpos m * 2 ^ e, 1) else (Zpos m, 2 ^ (- e)).

(** [r * 10^k] *)
Definition scale10 (r : ratio) (k : Z) : ratio :=
  let (n, d) := r in
  if 0 <=? k then (n * 10 ^ k, d) else (n, d * 10 ^ (- k)).

(** Nearest integer, ties to even. *)
Definition round_half_even (r : ratio) : Z :=
  let (n, d) := r in
  let q := n / d in
  match 2 * (n mod d) ?= d with
  | Lt => q
  | Gt => q + 1
  | Eq => if Z.even q then q else q + 1
  end.

(** [10^x <= r] *)
Definition ge_pow10 (r : ratio) (x : Z) : bool :=
  let (n, d) := scale10 r (- x) in d <=? n.

Fixpoint search_down (fuel : nat) (r : ratio) (x : Z) : Z :=
  match fuel with
  | O => x
  | S f => if ge_pow10 r x then x else search_down f r (x - 1)
  end.

(** [floor (log10 r)] for [r > 0].  Below one, [r >= 1/d > 10^-(log2 d + 1)]
    bounds the search. *)
Definition floor_log10 (r : ratio) : Z :=
  let (n, d) := r in
  if d <=? n then len (decimal (n / d)) - 1
  else search_down (S (Z.to_nat (Z.log2 d))) r (-1).

(** [P] significant decimal digits of [r > 0], correctly rounded: the pair
    [(D, X)] with [10^(P-1) <= D < 10^P] and [r] close to [D * 10^(X-P+1)]. *)
Definition sig_digits (P : Z) (r : ratio) : Z * Z :=
  let x := floor_log10 r in
  let D := round_half_even (scale10 r (P - 1 - x)) in
  if 10 ^ P <=? D then (D / 10, x + 1) else (D, x).

(** ** The [%] conversions of a float *)

Definition sign_str (s : bool) : pystr := if s then py "-" else [].

(** The exponent field: sign and at least two digits. *)
Definition fmt_exp (x : Z) : pystr :=
  py "e" ++ (if x <? 0 then py "-" else py "+") ++ zfill 2 (decimal (Z.abs x)).

(** Significant digits and decimal exponent of a finite float ([0] has
    digits [0...0] and exponent [0]). *)
Definition float_digits (P : Z) (v : float) : pystr * Z :=
  match v with
  | S754_finite _ m e =>
      let (D, X) := sig_digits P (ratio_of_finite m e) in
      (zfill P (decimal D), X)
  | _ => (zfill P (decimal 0), 0)
  end.

Definition float_sign (v : float) : bool :=
  match v with
  | S754_zero s | S754_infinity s | S754_finite s _ _ => s
  | S754_nan => false
  end.

(** What every conversion prints for a value that is not finite. *)
Definition fmt_nonfinite (v : float) : pystr :=
  match v with
  | S754_infinity s => sign_str s ++ py "inf"
  | _ => py "nan"
  end.

(** ["%.<p>e" % v] *)
Definition fmt_e (p : Z) (v : float) : pystr :=
  if is_finite v then
    let (ds, X) := float_digits (p + 1) v in
    sign_str (float_sign v) ++ firstn 1 ds
      ++ (if 0 <? p then py "." ++ skipn 1 ds else [])
      ++ fmt_exp X
  else fmt_nonfinite v.

(** ["%.<p>f" % v] *)
Definition fmt_f (p : Z) (v : float) : pystr :=
  if is_finite v then
    let D :=
      match v with
      | S754_finite _ m e => round_half_even (scale10 (ratio_of_finite m e) p)
      | _ => 0
      end in
    sign_str (float_sign v) ++ decimal (D / 10 ^ p)
      ++ (if 0 <? p then py "." ++ zfill p (decimal (D mod 10 ^ p)) else [])
  else fmt_nonfinite v.

(** Removal of trailing zeros, then of a bare point, from [".ddd"]. *)
Definition strip_fraction (frac : pystr) : pystr :=
  rstrip (py ".") (rstrip (py "0") (py "." ++ frac)).

(** ["%.<p>g" % v]: [P] significant digits; fixed notation when the decimal
    exponent [X] satisfies [-4 <= X < P], exponent notation otherwise; in
    both, trailing zeros of the fraction are removed. *)
Definition fmt_g (p : Z) (v : float) : pystr :=
  if is_finite v then
    let P := if p =? 0 then 1 else p in
    let (ds, X) := float_digits P v in
    if (-4 <=? X) && (X <? P) then
      let ip := if X <? 0 then py "0" else firstn (Z.to_nat (X + 1)) ds in
      let fp := if X <? 0 then repeat 48 (Z.to_nat (- X - 1)) ++ ds
                else skipn (Z.to_nat (X + 1)) ds in
      sign_str (float_sign v) ++ ip ++ strip_fraction fp
    else
      sign_str (float_sign v) ++ firstn 1 ds ++ strip_fraction (skipn 1 ds)
        ++ fmt_exp X
  else fmt_nonfinite v.

(** ** [float(s)] for a string [s]

    CPython's [PyFloat_FromString]: non-ASCII spaces and decimal digits are
    mapped to ASCII, surrounding white space is dropped, underscores between
    digits are removed, and what is left must be, in full, a decimal numeral
    or one of [inf], [infinity], [nan] (any case, optional sign).  The value
    is the nearest binary64, ties to even; a numeral too large gives an
    infinity.  Everything else raises [ValueError]. *)

(** [Py_ISSPACE]: the white space of the C locale. *)
Definition c_spaces : pystr := [32; 9; 10; 11; 12; 13].

(** Non-ASCII code points for which [Py_UNICODE_ISSPACE] holds. *)
Definition unicode_spaces : list char :=
  [ 133; 160; 5760; 8192; 8193; 8194; 8195; 8196; 8197; 8198; 8199; 8200;
    8201; 8202; 8232; 8233; 8239; 8287; 12288 ].

(** The code points of the digit zero of every non-ASCII block of decimal
    digits (Unicode 14.0, as in CPython 3.11); the nine code points after
    each are its digits one to nine. *)
Definition unicode_decimal_zeros : list char :=
  [ 1632; 1776; 1984; 2406; 2534; 2662; 2790; 2918; 3046; 3174; 3302; 3430;
    3558; 3664; 3792; 3872; 4160; 4240; 6112; 6160; 6470; 6608; 6784; 6800;
    6992; 7088; 7232; 7248; 42528; 43216; 43264; 43472; 43504; 43600; 44016;
    65296; 66720; 68912; 69734; 69872; 69942; 70096; 70384; 70736; 70864;
    71248; 71360; 71472; 71904; 72016; 72784; 73040; 73120; 92768; 92864;
    93008; 120782; 120792; 120802; 120812; 120822; 123200; 123632; 125264;
    130032 ].

(** [Py_UNICODE_TODECIMAL] on a non-ASCII code point. *)
Definition unicode_decimal (c : char) : option Z :=
  match find (fun z => (z <=? c) && (c <? z + 10)) unicode_decimal_zeros with
  | Some z => Some (c - z)
  | None => None
  end.

(** [_PyUnicode_TransformDecimalAndSpaceToASCII] on a string with a
    non-ASCII character: the first character that is neither ASCII, a space
    nor a decimal digit becomes ['?'] and ends the result. *)
Fixpoint transform_chars (s : pystr) : pystr :=
  match s with
  | [] => []
  | c :: t =>
      if c <? 127 then c :: transform_chars t
      else if char_in c unicode_spaces then 32 :: transform_chars t
      else match unicode_decimal c with
           | Some d => digit_char d :: transform_chars t
           | None => [63]
           end
  end.

Definition transform_decimal_and_space (s : pystr) : pystr :=
  if forallb (fun c => c <? 128) s then s else transform_chars s.

Fixpoint lstrip (chars s : pystr) : pystr :=
  match s with
  | c :: t => if char_in c chars then lstrip chars t else s
  | [] => []
  end.

Definition is_digit (c : char) : bool := (48 <=? c) && (c <=? 57).

(** [_Py_string_to_number_with_underscores]: an underscore must follow a
    digit and be followed by one. *)
Fixpoint remove_underscores (prev : char) (s : pystr) : result pystr :=
  match s with
  | [] => if prev =? 95 then Raise ValueError else Ok []
  | c :: t =>
      if c =? 95 then
        if is_digit prev then remove_underscores c t else Raise ValueError
      else if (prev =? 95) && negb (is_digit c) then Raise ValueError
      else r <- remove_underscores c t ;; Ok (c :: r)
  end.

Fixpoint span_digits (s : pystr) : pystr * pystr :=
  match s with
  | c :: t =>
      if is_digit c then let (a, b) := span_digits t in (c :: a, b)
      else ([], s)
  | [] => ([], [])
  end.

Definition digits_value (ds : pystr) : Z :=
  fold_left (fun acc c => 10 * acc + (c - 48)) ds 0.

Definition take_sign (s : pystr) : bool * pystr :=
  match s with
  | c :: t => if c =? 45 then (true, t) else if c =? 43 then (false, t)
              else (false, s)
  | [] => (false, [])
  end.

(** The binary64 nearest to [M * 10^E] for [M >= 0], with the sign [neg].
    For [E < 0] the quotient is taken with enough extra bits that rounding it
    once, with the position of the remainder, is exact. *)
Definition float_of_decimal (neg : bool) (M E : Z) : float :=
  if M =? 0 then S754_zero neg
  else if 0 <=? E then binary_round prec emax neg (Z.to_pos (M * 10 ^ E)) 0
  else
    let d := 10 ^ (- E) in
    let k := prec + 2 + Z.log2 d in
    let (q, r) := Z.div_eucl (M * 2 ^ k) d in
    binary_round_aux prec emax neg q (- k) (new_location d r).

Definition MAX_DIGITS : Z := 1000000000.

(** The point and the digits after it, if a point is next. *)
Definition take_fraction (s : pystr) : pystr * pystr :=
  match s with
  | c :: t => if c =? 46 then span_digits t else ([], s)
  | [] => ([], s)
  end.

(** The exponent, if an exponent mark, an optional sign and at least one
    digit are next; an exponent mark without digits is left unread. *)
Definition take_exponent (s : pystr) : Z * pystr :=
  match s with
  | c :: t =>
      if (c =? 101) || (c =? 69) then
        let (eneg, t1) := take_sign t in
        let (ed, t2) := span_digits t1 in
        match ed with
        | [] => (0, s)
        | _ => ((if eneg then - digits_value ed else digits_value ed), t2)
        end
      else (0, s)
  | [] => (0, s)
  end.

(** [_Py_dg_strtod]: the value of the longest decimal numeral that starts
    [s] and what follows it, or [None] when no numeral starts [s]. *)
Definition strtod (s : pystr) : option (float * pystr) :=
  let (neg, s1) := take_sign s in
  let (ip, s2) := span_digits s1 in
  let (fp, s3) := take_fraction s2 in
  match ip ++ fp with
  | [] => None
  | ds =>
      if (MAX_DIGITS <? len (lstrip (py "0") ds)) || (MAX_DIGITS <? len fp)
      then None
      else
        let (e, s4) := take_exponent s3 in
        Some (float_of_decimal neg (digits_value ds) (e - len fp), s4)
  end.

Definition to_lower (c : char) : char :=
  if (65 <=? c) && (c <=? 90) then c + 32 else c.

(** [case_insensitive_match]: what follows the lower-case word [t] at the
    start of [s], if [s] starts with it in any case. *)
Fixpoint case_insensitive_match (s t : pystr) : option pystr :=
  match t, s with
  | [], _ => Some s
  | d :: t', c :: s' =>
      if to_lower c =? d then case_insensitive_match s' t' else None
  | _ :: _, [] => None
  end.

(** [_Py_parse_inf_or_nan] *)
Definition parse_inf_or_nan (s : pystr) : option (float * pystr) :=
  let (neg, s1) := take_sign s in
  match case_insensitive_match s1 (py "inf") with
  | Some s2 =>
      match case_insensitive_match s2 (py "inity") with
      | Some s3 => Some (S754_infinity neg, s3)
      | None => Some (S754_infinity neg, s2)
      end
  | None =>
      match case_insensitive_match s1 (py "nan") with
      | Some s2 => Some (S754_nan, s2)
      | None => None
      end
  end.

(** [float_from_string_inner]: the whole string must be consumed. *)
Definition float_from_string_inner (s : pystr) : result float :=
  match strtod s with
  | Some (v, []) => Ok v
  | Some (_, _ :: _) => Raise ValueError
  | None =>
      match parse_inf_or_nan s with
      | Some (v, []) => Ok v
      | _ => Raise ValueError
      end
  end.

(** [float(s)] *)
Definition pyfloat (s : pystr) : result float :=
  let t := rstrip c_spaces (lstrip c_spaces (transform_decimal_and_space s)) in
  if char_in 95 t then
    u <- remove_underscores 0 t ;; float_from_string_inner u
  else float_from_string_inner t.

(** ** The calculator state ([CalculatorApp]) *)

Local Open Scope string_scope.
Local Open Scope list_scope.

(** The attributes set by [reset_all], and the two pieces of the window that
    [_update_display] writes: the display text and the label of the clear
    button. *)
Record State : Type := mkState {
  acc : float;
  current : pystr;
  operator : option pystr;
  last_operator : option pystr;
  last_operand : option float;
  just_evaluated : bool;
  awaiting_operand : bool;
  has_input : bool;
  display_var : pystr;
  btn_ac : pystr
}.

Definition with_acc (v : float) (st : State) : State :=
  mkState v (current st) (operator st) (last_operator st) (last_operand st)
    (just_evaluated st) (awaiting_operand st) (has_input st)
    (display_var st) (btn_ac st).

Definition with_current (s : pystr) (st : State) : State :=
  mkState (acc st) s (operator st) (last_operator st) (last_operand st)
    (just_evaluated st) (awaiting_operand st) (has_input st)
    (display_var st) (btn_ac st).

Definition with_operator (o : option pystr) (st : State) : State :=
  mkState (acc st) (current st) o (last_operator st) (last_operand st)
    (just_evaluated st) (awaiting_operand st) (has_input st)
    (display_var st) (btn_ac st).

Definition with_last_operator (o : option pystr) (st : State) : State :=
  mkState (acc st) (current st) (operator st) o (last_operand st)
    (just_evaluated st) (awaiting_operand st) (has_input st)
    (display_var st) (btn_ac st).

Definition with_last_operand (v : option float) (st : State) : State :=
  mkState (acc st) (current st) (operator st) (last_operator st) v
    (just_evaluated st) (awaiting_operand st) (has_input st)
    (display_var st) (btn_ac st).

Definition with_just_evaluated (b : bool) (st : State) : State :=
  mkState (acc st) (current st) (operator st) (last_operator st)
    (last_operand st) b (awaiting_operand st) (has_input st)
    (display_var st) (btn_ac st).

Definition with_awaiting_operand (b : bool) (st : State) : State :=
  mkState (acc st) (current st) (operator st) (last_operator st)
    (last_operand st) (just_evaluated st) b (has_input st)
    (display_var st) (btn_ac st).

Definition with_has_input (b : bool) (st : State) : State :=
  mkState (acc st) (current st) (operator st) (last_operator st)
    (last_operand st) (just_evaluated st) (awaiting_operand st) b
    (display_var st) (btn_ac st).

Definition with_display_var (s : pystr) (st : State) : State :=
  mkState (acc st) (current st) (operator st) (last_operator st)
    (last_operand st) (just_evaluated st) (awaiting_operand st) (has_input st)
    s (btn_ac st).

Definition with_btn_ac (s : pystr) (st : State) : State :=
  mkState (acc st) (current st) (operator st) (last_operator st)
    (last_operand st) (just_evaluated st) (awaiting_operand st) (has_input st)
    (display_var st) s.

Definition is_none {A} (o : option A) : bool :=
  match o with None => true | Some _ => false end.

(** The text shown for an infinite or undefined result: the six Cyrillic
    letters of the word for "error". *)
Definition ERROR_TEXT : pystr := [1054; 1096; 1080; 1073; 1082; 1072]%Z.

(** [reset_all] *)
Definition reset_all (st : State) : State :=
  mkState zero (py "0") None None None false false false
    (display_var st) (btn_ac st).

(** [_format_number].  The comparison is with [float("inf")], the positive
    infinity. *)
Definition _format_number (value : float) : pystr :=
  if float_eq value pos_inf || float_ne value value then ERROR_TEXT
  else
    let s := fmt_g 12 value in
    let s :=
      if char_in 101 s || char_in 69 s
      then rstrip (py ".") (rstrip (py "0") (fmt_f 12 value))
      else s in
    let s :=
      if char_in 46 s then rstrip (py ".") (rstrip (py "0") s) else s in
    if (12 <? len s)%Z then fmt_e 6 value else s.

(** [float(text)], and the text itself when it is no number. *)
Definition format_text (text : pystr) : result pystr :=
  try_except (v <- pyfloat text ;; Ok (_format_number v)) ValueError (Ok text).

(** [_update_display] *)
Definition _update_display (st : State) : result State :=
  let st :=
    with_btn_ac (if has_input st || just_evaluated st then py "C" else py "AC")
      st in
  let text := current st in
  shown <-
    (if str_eqb text ERROR_TEXT then Ok text
     else
       match operator st with
       | Some op =>
           let left := _format_number (acc st) in
           if awaiting_operand st then Ok (left ++ py " " ++ op)
           else
             right <- format_text text ;;
             Ok (left ++ py " " ++ op ++ py " " ++ right)
       | None => format_text text
       end) ;;
  Ok (with_display_var shown st).

(** [_set_current] *)
Definition _set_current (text : pystr) (st : State) : result State :=
  let st := with_current text st in
  let st := with_has_input (negb (str_eqb text (py "0"))) st in
  _update_display st.

(** The common start of [_append_digit] and [input_dot]. *)
Definition begin_entry (st : State) : State :=
  let st :=
    if just_evaluated st && is_none (operator st) then reset_all st else st in
  let st := with_just_evaluated false st in
  if awaiting_operand st then
    with_awaiting_operand false (with_has_input false (with_current (py "0") st))
  else st.

(** [_append_digit] *)
Definition _append_digit (d : pystr) (st : State) : result State :=
  let st := begin_entry st in
  if str_eqb (current st) (py "-0") || str_eqb (current st) (py "0") then
    let base := if startswith (current st) (py "-") then py "-" else [] in
    _set_current (base ++ d) st
  else _set_current (current st ++ d) st.

(** [input_dot] *)
Definition input_dot (st : State) : result State :=
  let st := begin_entry st in
  if negb (char_in 46 (current st)) then _set_current (current st ++ py ".") st
  else Ok st.

(** [toggle_sign] *)
Definition toggle_sign (st : State) : result State :=
  if startswith (current st) (py "-") then
    _set_current (drop_first (current st)) st
  else if negb (str_eqb (current st) (py "0")) then
    _set_current (py "-" ++ current st) st
  else Ok st.

(** [percent]; a text that is no number ends the handler at once. *)
Definition percent (st : State) : result State :=
  parsed <-
    try_except (v <- pyfloat (replace_char 44 46 (current st)) ;; Ok (Some v))
      ValueError (Ok None) ;;
  match parsed with
  | None => Ok st
  | Some cur =>
      cur <-
        match operator st with
        | None => float_truediv cur (float_of_Z 100)
        | Some _ =>
            q <- float_truediv cur (float_of_Z 100) ;;
            Ok (float_mul (acc st) q)
        end ;;
      _set_current (_format_number cur) st
  end.

(** [clear_entry_or_all] *)
Definition clear_entry_or_all (st : State) : result State :=
  if has_input st || just_evaluated st then
    st <- _set_current (py "0") st ;;
    let st := with_just_evaluated false st in
    let st := with_has_input false st in
    _update_display st
  else
    let saved_current := current st in
    let st := reset_all st in
    let st := with_current saved_current st in
    let st := with_has_input (negb (str_eqb (current st) (py "0"))) st in
    _update_display st.

(** [backspace] *)
Definition backspace (st : State) : result State :=
  if just_evaluated st then Ok st
  else
    let s := current st in
    if (len s <=? 1)%Z || ((len s =? 2)%Z && startswith s (py "-")) then
      _set_current (py "0") st
    else _set_current (drop_last s) st.

(** [_apply_operator]; an operator that is none of the four gives [b]. *)
Definition _apply_operator (a b : float) (op : pystr) : result float :=
  try_except
    (if str_eqb op (py "+") then Ok (float_add a b)
     else if str_eqb op (py "-") then Ok (float_sub a b)
     else if str_eqb op (py "*") then Ok (float_mul a b)
     else if str_eqb op (py "/") then float_truediv a b
     else Ok b)
    ZeroDivisionError (Ok pos_inf).

(** [float(self.current)] with [0.0] for a text that is no number. *)
Definition current_value (st : State) : result float :=
  try_except (pyfloat (current st)) ValueError (Ok zero).

(** [set_operator] *)
Definition set_operator (op : pystr) (st : State) : result State :=
  let st := if just_evaluated st then with_just_evaluated false st else st in
  cur <- current_value st ;;
  st <-
    match operator st with
    | None => Ok (with_acc cur st)
    | Some pending =>
        v <- _apply_operator (acc st) cur pending ;; Ok (with_acc v st)
    end ;;
  let st := with_operator (Some op) st in
  let st := with_last_operator None st in
  let st := with_last_operand None st in
  let st := with_awaiting_operand true st in
  _update_display st.

(** [equals] *)
Definition equals (st : State) : result State :=
  cur <- current_value st ;;
  rs <-
    match operator st with
    | None =>
        match last_operator st, last_operand st with
        | Some lop, Some lod =>
            r <- _apply_operator cur lod lop ;; Ok (r, st)
        | _, _ => Ok (cur, st)
        end
    | Some pending =>
        r <- _apply_operator (acc st) cur pending ;;
        Ok (r, with_operator None
                 (with_last_operand (Some cur)
                    (with_last_operator (Some pending) st)))
    end ;;
  st <- _set_current (_format_number (fst rs)) (snd rs) ;;
  Ok (with_just_evaluated true st).

(** ** Events: what the buttons and keys are bound to *)

Inductive digit : Type := D0 | D1 | D2 | D3 | D4 | D5 | D6 | D7 | D8 | D9.

Definition digit_str (d : digit) : pystr :=
  match d with
  | D0 => py "0" | D1 => py "1" | D2 => py "2" | D3 => py "3" | D4 => py "4"
  | D5 => py "5" | D6 => py "6" | D7 => py "7" | D8 => py "8" | D9 => py "9"
  end.

Inductive op : Type := Add | Sub | Mul | Div.

Definition op_str (o : op) : pystr :=
  match o with
  | Add => py "+" | Sub => py "-" | Mul => py "*" | Div => py "/"
  end.

Inductive event : Type :=
| EDigit (d : digit)
| EPoint
| EToggleSign
| EPercent
| EOperator (o : op)
| EEquals
| EClear
| EBackspace.

Definition handle (ev : event) (st : State) : result State :=
  match ev with
  | EDigit d => _append_digit (digit_str d) st
  | EPoint => input_dot st
  | EToggleSign => toggle_sign st
  | EPercent => percent st
  | EOperator o => set_operator (op_str o) st
  | EEquals => equals st
  | EClear => clear_entry_or_all st
  | EBackspace => backspace st
  end.

Fixpoint run (evs : list event) (st : State) : result State :=
  match evs with
  | [] => Ok st
  | ev :: rest => st' <- handle ev st ;; run rest st'
  end.

(** The state after [__init__]: [reset_all], then the first
    [_update_display] of [_build_ui]. *)
Definition initial : State :=
  mkState zero (py "0") None None None false false false (py "0") (py "AC").

Inductive reachable : State -> Prop :=
| reachable_initial : reachable initial
| reachable_step : forall st ev st',
    reachable st -> handle ev st = Ok st' -> reachable st'.

(** What [_update_display] writes, in closed form: the label of the clear
    button and the display text. *)
Definition label_of (st : State) : pystr :=
  if has_input st || just_evaluated st then py "C" else py "AC".

Definition shown_of (st : State) : pystr :=
  let text := current st in
  let formatted :=
    match pyfloat text with Ok v => _format_number v | Raise _ => text end in
  if str_eqb text ERROR_TEXT then text
  else
    match operator st with
    | Some o =>
        if awaiting_operand st then _format_number (acc st) ++ py " " ++ o
        else _format_number (acc st) ++ py " " ++ o ++ py " " ++ formatted
    | None => formatted
    end.

(** The value the handlers compute with: [float(text)], or [0.0]. *)
Definition value_or_zero (text : pystr) : float :=
  match pyfloat text with Ok v => v | Raise _ => zero end.

(** ** The handlers' effects on the text, in closed form *)

(** The text [_append_digit] writes over the text [s]. *)
Definition appended (s d : pystr) : pystr :=
  if str_eqb s (py "-0") || str_eqb s (py "0")
  then (if startswith s (py "-") then py "-" else []) ++ d
  else s ++ d.

(** The text [toggle_sign] leaves for the text [s]. *)
Definition toggled (s : pystr) : pystr :=
  if startswith s (py "-") then drop_first s
  else if negb (str_eqb s (py "0")) then py "-" ++ s
  else s.

(** The value [percent] formats, from the parsed current input. *)
Definition percent_value (st : State) (cur : float) : float :=
  match operator st with
  | None => SFdiv prec emax cur (float_of_Z 100)
  | Some _ => float_mul (acc st) (SFdiv prec emax cur (float_of_Z 100))
  end.

(** The text [backspace] leaves for the text [s]. *)
Definition erased (s : pystr) : pystr :=
  if (len s <=? 1)%Z || ((len s =? 2)%Z && startswith s (py "-"))
  then py "0" else drop_last s.

(** The characters of a numeral: digits, signs, the point and the exponent
    mark. *)
Definition render_char (c : char) : bool :=
  is_digit c || char_in c (py "-+.e").

Definition rendered (c : char) : Prop := render_char c = true.

(** Neither a comma nor the mark that [float] puts for a character it cannot
    read. *)
Definition plain_char (c : char) : Prop := c <> 44%Z /\ c <> 63%Z.

(** ** Sample states *)

(** A state with the operator [+] pending: the one after 2, +, 3. *)
Definition state_2_plus_3 : State :=
  mkState (float_of_Z 2) (py "3") (Some (py "+")) None None
    false false true (py "2 + 3") (py "C").

(** After 5, +, 3, =: no operator pending, [+ 3] remembered. *)
Definition state_5_plus_3_eq : State :=
  mkState (float_of_Z 5) (py "8") None (Some (py "+")) (Some (float_of_Z 3))
    true false true (py "8") (py "C").

(** After 1, 2: live input, nothing else. *)
Definition state_12 : State :=
  mkState zero (py "12") None None None false false true (py "12") (py "C").

(** After 5, /, 0, =: the error text is the current input. *)
Definition state_error : State :=
  mkState (float_of_Z 5) ERROR_TEXT None (Some (py "/")) (Some zero)
    true false true ERROR_TEXT (py "C").

(** After 2, +, =: [equals] has cleared the operator; [awaiting_operand],
    set by [set_operator], is still set. *)
Definition state_2_plus_eq : State :=
  mkState (float_of_Z 2) (py "4") None (Some (py "+")) (Some (float_of_Z 2))
    true true true (py "4") (py "C").

(** After 2, +, 3, =. *)
Definition state_2_plus_3_eq : State :=
  mkState (float_of_Z 2) (py "5") None (Some (py "+")) (Some (float_of_Z 3))
    true false true (py "5") (py "C").

(** After 5, /, 0, =, +/-: a sign before the error text. *)
Definition state_error_toggled : State :=
  mkState (float_of_Z 5) (py "-" ++ ERROR_TEXT) None (Some (py "/"))
    (Some zero) true false true (py "-" ++ ERROR_TEXT) (py "C").

(** After 9, then eight times [*] [=], then [*], [+/-], [=]: a product that
    overflows downwards. *)
Definition negative_overflow : list event :=
  [EDigit D9] ++ List.concat (repeat [EOperator Mul; EEquals] 8)
    ++ [EOperator Mul; EToggleSign; EEquals].

(** After 2, 0, 0. *)
Definition state_200 : State :=
  mkState zero (py "200") None None None false false true (py "200") (py "C").

(** After 1, 0, 0, +, 5, 0: the operator [+] pending, 100 accumulated. *)
Definition state_100_plus_50 : State :=
  mkState (float_of_Z 100) (py "50") (Some (py "+")) None None
    false false true (py "100 + 50") (py "C").

(** 100000000000000, then [%], then two backspaces: the exponent of the
    formatted 1e+12 is cut off. *)
Definition exponent_cut : list event :=
  [EDigit D1] ++ repeat (EDigit D0) 14 ++ [EPercent; EBackspace; EBackspace].

(** ** The state after a refresh of the window *)

(** [_update_display] in closed form. *)
Definition refresh (st : State) : State :=
  with_display_var (shown_of st) (with_btn_ac (label_of st) st).

(** The four operator symbols of the buttons and keys. *)
Definition operator_symbols : list pystr := [py "+"; py "-"; py "*"; py "/"].

(** What the calculator fields keep in every state it can be in. *)
Record consistent (st : State) : Prop := {
  has_input_current : has_input st = negb (str_eqb (current st) (py "0"));
  evaluated_no_operator : just_evaluated st = true -> operator st = None;
  operator_symbol : forall o, operator st = Some o -> In o operator_symbols;
  last_operator_symbol :
    forall o, last_operator st = Some o -> In o operator_symbols;
  last_pair :
    (last_operator st = None /\ last_operand st = None) \/
    (exists o v, last_operator st = Some o /\ last_operand st = Some v)
}.

(** The display text is the one [_update_display] computes from the fields. *)
Definition in_sync (st : State) : Prop := display_var st = shown_of st.

(** The label of the clear button is the one [_update_display] computes from
    the flags, or it is still "AC" right after [equals] gave "0". *)
Definition label_ok (st : State) : Prop :=
  btn_ac st = label_of st \/
  (just_evaluated st = true /\ current st = py "0" /\ btn_ac st = py "AC").

(** After 2, +: the operator chosen, the 2 still on show. *)
Definition state_2_plus : State :=
  mkState (float_of_Z 2) (py "2") (Some (py "+")) None None
    false true true (py "2 +") (py "C").

(** ** Typing a number *)

Definition digit_val (d : digit) : Z :=
  match d with
  | D0 => 0 | D1 => 1 | D2 => 2 | D3 => 3 | D4 => 4
  | D5 => 5 | D6 => 6 | D7 => 7 | D8 => 8 | D9 => 9
  end%Z.

(** The number whose decimal digits are [ds]. *)
Definition number_of (ds : list digit) : Z :=
  fold_left (fun a d => 10 * a + digit_val d)%Z ds 0%Z.

(** The text after the digits [ds] are typed over the text [s]. *)
Definition typed (s : pystr) (ds : list digit) : pystr :=
  fold_left (fun s d => appended s (digit_str d)) ds s.

(** A text made of digits, and not empty. *)
Definition digit_text (s : pystr) : Prop :=
  s <> [] /\ Forall (fun c => is_digit c = true) s.

(** ** The start of the text *)

(** The text is not empty, and a sign at its start is followed by a
    character that is no sign. *)
Definition well_started (s : pystr) : bool :=
  match s with
  | [] => false
  | c :: t =>
      if (c =? 45)%Z then
        match t with
        | [] => false
        | d :: _ => negb (d =? 45)%Z
        end
      else true
  end.

(** The text starts as a numeral does: an optional sign, then a digit. *)
Definition numeral_start (s : pystr) : Prop :=
  exists (b : bool) (c : char) (r : pystr),
    s = sign_str b ++ c :: r /\ is_digit c = true.

(** ** The buttons and the keys ([_build_ui], [_bind_keys]) *)

(** A call of [make_btn]: text, grid row and column, column span, colour and
    the handler the button calls. *)
Record button : Type := mkButton {
  btn_text : pystr;
  btn_row : Z;
  btn_column : Z;
  btn_columnspan : Z;
  btn_color : pystr;
  btn_cmd : event
}.

Definition color_fn : pystr := py "#a5a5a5".
Definition color_num : pystr := py "#333333".
Definition color_op : pystr := py "#ff9f0a".

(** The buttons in the order [_build_ui] makes them; the display takes
    row 0. *)
Definition buttons : list button :=
  [ mkButton (py "AC") 1 0 1 color_fn EClear;
    mkButton (py "+/-") 1 1 1 color_fn EToggleSign;
    mkButton (py "%") 1 2 1 color_fn EPercent;
    mkButton (py "/") 1 3 1 color_op (EOperator Div);
    mkButton (py "7") 2 0 1 color_num (EDigit D7);
    mkButton (py "8") 2 1 1 color_num (EDigit D8);
    mkButton (py "9") 2 2 1 color_num (EDigit D9);
    mkButton (py "*") 2 3 1 color_op (EOperator Mul);
    mkButton (py "4") 3 0 1 color_num (EDigit D4);
    mkButton (py "5") 3 1 1 color_num (EDigit D5);
    mkButton (py "6") 3 2 1 color_num (EDigit D6);
    mkButton (py "-") 3 3 1 color_op (EOperator Sub);
    mkButton (py "1") 4 0 1 color_num (EDigit D1);
    mkButton (py "2") 4 1 1 color_num (EDigit D2);
    mkButton (py "3") 4 2 1 color_num (EDigit D3);
    mkButton (py "+") 4 3 1 color_op (EOperator Add);
    mkButton (py "0") 5 0 2 color_num (EDigit D0);
    mkButton (py ".") 5 2 1 color_num EPoint;
    mkButton (py "=") 5 3 1 color_op EEquals ]%Z.

(** The key sequences [_bind_keys] binds, each with its handler. *)
Definition key_bindings : list (pystr * event) :=
  [ (py "0", EDigit D0); (py "1", EDigit D1); (py "2", EDigit D2);
    (py "3", EDigit D3); (py "4", EDigit D4); (py "5", EDigit D5);
    (py "6", EDigit D6); (py "7", EDigit D7); (py "8", EDigit D8);
    (py "9", EDigit D9);
    (py ".", EPoint); (py ",", EPoint);
    (py "+", EOperator Add); (py "-", EOperator Sub);
    (py "*", EOperator Mul); (py "/", EOperator Div);
    (py "=", EEquals); (py "<Return>", EEquals);
    (py "<Escape>", EClear);
    (py "<BackSpace>", EBackspace) ].

(** The button [b] covers the cell of row [r] and column [c]. *)
Definition covers (r c : Z) (b : button) : bool :=
  ((btn_row b =? r) && (btn_column b <=? c)
   && (c <? btn_column b + btn_columnspan b))%Z.

(** * Properties *)

Arguments pyfloat : simpl never.
Arguments _format_number : simpl never.
Arguments fmt_g : simpl never.
Arguments fmt_f : simpl never.
Arguments fmt_e : simpl never.
Arguments float_add : simpl never.
Arguments float_sub : simpl never.
Arguments float_mul : simpl never.
Arguments float_of_Z : simpl never.
Arguments float_truediv : simpl never.
Arguments py : simpl never.

(** ** The literals and the first state of the source *)

(** [float("inf")], [100.0] and [0.0] are the constants the model uses. *)
Lemma source_literals :
  pyfloat (py "inf") = Ok pos_inf /\
  pyfloat (py "100.0") = Ok (float_of_Z 100) /\
  pyfloat (py "0.0") = Ok zero.
Proof.
  split; [vm_compute; reflexivity|].
  split; vm_compute; reflexivity.
Qed.

(** [ERROR_TEXT] is no number. *)
Lemma error_text_no_number : pyfloat ERROR_TEXT = Raise ValueError.
Proof. vm_compute. reflexivity. Qed.

(** [__init__]: the attributes of [reset_all], then the first
    [_update_display], whatever was there before. *)
Lemma initial_state (st : State) : _update_display (reset_all st) = Ok initial.
Proof. destruct st. vm_compute. reflexivity. Qed.

(** ** No exception leaves a handler *)

Lemma remove_underscores_raises (s : pystr) :
  forall prev e, remove_underscores prev s = Raise e -> e = ValueError.
Proof.
  induction s as [|c t IH]; intros prev e; simpl.
  - destruct (prev =? 95)%Z; congruence.
  - destruct (c =? 95)%Z.
    + destruct (is_digit prev); [apply IH | congruence].
    + destruct ((prev =? 95)%Z && negb (is_digit c)); [congruence|].
      destruct (remove_underscores c t) as [r|e'] eqn:E; simpl; [congruence|].
      intros H; inversion H; subst. eapply IH; eassumption.
Qed.

Lemma float_from_string_inner_raises (s : pystr) (e : exn) :
  float_from_string_inner s = Raise e -> e = ValueError.
Proof.
  unfold float_from_string_inner.
  destruct (strtod s) as [[v [|c r]]|]; try congruence.
  destruct (parse_inf_or_nan s) as [[v [|c r]]|]; congruence.
Qed.

(** [float(s)] raises nothing but [ValueError]. *)
Lemma pyfloat_raises (s : pystr) (e : exn) :
  pyfloat s = Raise e -> e = ValueError.
Proof.
  unfold pyfloat.
  set (t := rstrip c_spaces (lstrip c_spaces (transform_decimal_and_space s))).
  destruct (char_in 95 t).
  - destruct (remove_underscores 0 t) as [u|e'] eqn:E; simpl.
    + apply float_from_string_inner_raises.
    + intros H; inversion H; subst.
      eapply remove_underscores_raises; eassumption.
  - apply float_from_string_inner_raises.
Qed.

Lemma pyfloat_cases (s : pystr) :
  (exists v, pyfloat s = Ok v) \/ pyfloat s = Raise ValueError.
Proof.
  destruct (pyfloat s) as [v|e] eqn:E.
  - left; eauto.
  - right. apply pyfloat_raises in E. now subst.
Qed.

Lemma current_value_ok (st : State) :
  current_value st =
  Ok (match pyfloat (current st) with Ok v => v | Raise _ => zero end).
Proof.
  unfold current_value.
  destruct (pyfloat_cases (current st)) as [[v E]|E]; rewrite E; reflexivity.
Qed.

Lemma format_text_ok (text : pystr) :
  format_text text =
  Ok (match pyfloat text with Ok v => _format_number v | Raise _ => text end).
Proof.
  unfold format_text.
  destruct (pyfloat_cases text) as [[v E]|E]; rewrite E; reflexivity.
Qed.

(** The division of [_apply_operator] is the only operation that raises, and
    its exception is caught. *)
Lemma apply_operator_ok (a b : float) (o : pystr) :
  exists v, _apply_operator a b o = Ok v.
Proof.
  unfold _apply_operator.
  destruct (str_eqb o (py "+")); [eexists; reflexivity|].
  destruct (str_eqb o (py "-")); [eexists; reflexivity|].
  destruct (str_eqb o (py "*")); [eexists; reflexivity|].
  destruct (str_eqb o (py "/")); [|eexists; reflexivity].
  unfold float_truediv. destruct b; eexists; reflexivity.
Qed.

Lemma hundred_eq : float_of_Z 100 = S754_finite false 7036874417766400 (-46).
Proof. reflexivity. Qed.

(** [cur / 100.0] never raises. *)
Lemma div_hundred_ok (cur : float) :
  float_truediv cur (float_of_Z 100) = Ok (SFdiv prec emax cur (float_of_Z 100)).
Proof. rewrite hundred_eq. reflexivity. Qed.

Lemma update_display_ok (st : State) :
  _update_display st =
  Ok (with_display_var (shown_of st) (with_btn_ac (label_of st) st)).
Proof.
  unfold _update_display, shown_of, label_of.
  destruct st as [a c o lo ld je aw hi dv ba]; simpl.
  destruct (str_eqb c ERROR_TEXT); [reflexivity|].
  destruct o as [o|].
  - destruct aw; [reflexivity|]. rewrite format_text_ok. reflexivity.
  - rewrite format_text_ok. reflexivity.
Qed.

Lemma set_current_ok (text : pystr) (st : State) :
  exists shown label,
    _set_current text st =
    Ok (mkState (acc st) text (operator st) (last_operator st)
          (last_operand st) (just_evaluated st) (awaiting_operand st)
          (negb (str_eqb text (py "0"))) shown label).
Proof.
  unfold _set_current. rewrite update_display_ok.
  eexists; eexists; reflexivity.
Qed.

(** ** Operators and equals *)

Ltac step_set_current :=
  match goal with
  | |- context [_set_current ?t ?s] =>
      let shown := fresh "shown" in
      let label := fresh "label" in
      let E := fresh "E" in
      destruct (set_current_ok t s) as (shown & label & E);
      rewrite E; clear E
  end.

Lemma current_value_with_just_evaluated (b : bool) (st : State) :
  current_value (with_just_evaluated b st) = current_value st.
Proof. reflexivity. Qed.

Lemma state_2_plus_3_run :
  run [EDigit D2; EOperator Add; EDigit D3] initial = Ok state_2_plus_3.
Proof. vm_compute. reflexivity. Qed.

Lemma current_value_eq (st : State) :
  current_value st = Ok (value_or_zero (current st)).
Proof. apply current_value_ok. Qed.

(** The state [set_operator] returns. *)
Lemma set_operator_result (o : pystr) (st : State) :
  exists v shown label,
    match operator st with
    | Some pending =>
        _apply_operator (acc st) (value_or_zero (current st)) pending = Ok v
    | None => v = value_or_zero (current st)
    end /\
    set_operator o st =
    Ok (mkState v (current st) (Some o) None None false true (has_input st)
          shown label).
Proof.
  unfold set_operator.
  assert (H : (if just_evaluated st then with_just_evaluated false st else st)
              = with_just_evaluated false st).
  { destruct st as [a c op lo ld je aw hi dv ba]; destruct je; reflexivity. }
  rewrite H. rewrite current_value_with_just_evaluated, current_value_eq.
  destruct st as [a c op lo ld je aw hi dv ba]; simpl.
  destruct op as [pending|]; simpl.
  - destruct (apply_operator_ok a (value_or_zero c) pending) as [v Hv].
    rewrite Hv; simpl. rewrite update_display_ok.
    exists v. eexists; eexists. split; [reflexivity|]. reflexivity.
  - rewrite update_display_ok.
    eexists; eexists; eexists. split; reflexivity.
Qed.

(** The state [equals] returns. *)
Lemma equals_result (st : State) :
  exists r shown label,
    match operator st with
    | Some pending =>
        _apply_operator (acc st) (value_or_zero (current st)) pending = Ok r
    | None =>
        match last_operator st, last_operand st with
        | Some lop, Some lod =>
            _apply_operator (value_or_zero (current st)) lod lop = Ok r
        | _, _ => r = value_or_zero (current st)
        end
    end /\
    equals st =
    Ok (mkState (acc st) (_format_number r) None
          (match operator st with
           | Some pending => Some pending
           | None => last_operator st
           end)
          (match operator st with
           | Some _ => Some (value_or_zero (current st))
           | None => last_operand st
           end)
          true (awaiting_operand st)
          (negb (str_eqb (_format_number r) (py "0"))) shown label).
Proof.
  unfold equals. rewrite current_value_eq.
  destruct st as [a c op lo ld je aw hi dv ba]; simpl.
  destruct op as [pending|]; simpl.
  - destruct (apply_operator_ok a (value_or_zero c) pending) as [r Hr].
    rewrite Hr; simpl. step_set_current. simpl.
    exists r. eexists; eexists. split; reflexivity.
  - destruct lo as [lop|]; [destruct ld as [lod|]|]; simpl.
    + destruct (apply_operator_ok (value_or_zero c) lod lop) as [r Hr].
      rewrite Hr; simpl. step_set_current. simpl.
      exists r. eexists; eexists. split; reflexivity.
    + step_set_current. simpl. eexists; eexists; eexists. split; reflexivity.
    + step_set_current. simpl. eexists; eexists; eexists. split; reflexivity.
Qed.

(** C1. Chain evaluation: with an operator pending, [set_operator] first folds
    it (the accumulator becomes [_apply_operator] of the accumulator, the
    parsed current input and the pending operator), then records the new
    operator and sets [awaiting_operand]; and 2, +, 3, *, 4, = has accumulator
    5 at the [*] and ends with the result 20. *)
Theorem chain_evaluation :
  (forall (st : State) (o pending : pystr),
      operator st = Some pending ->
      exists cur v st',
        current_value st = Ok cur /\
        _apply_operator (acc st) cur pending = Ok v /\
        set_operator o st = Ok st' /\
        acc st' = v /\
        operator st' = Some o /\
        awaiting_operand st' = true) /\
  (exists s1 s2,
      run [EDigit D2; EOperator Add; EDigit D3; EOperator Mul] initial = Ok s1 /\
      acc s1 = float_of_Z 5 /\
      run [EDigit D4; EEquals] s1 = Ok s2 /\
      current s2 = py "20" /\
      display_var s2 = py "20").
Proof.
  split.
  - intros st o pending Hop.
    destruct (set_operator_result o st) as (v & shown & label & Hv & E).
    rewrite Hop in Hv.
    exists (value_or_zero (current st)), v. eexists.
    split; [apply current_value_eq|]. split; [exact Hv|]. split; [exact E|].
    simpl. auto.
  - eexists; eexists.
    split; [vm_compute; reflexivity|].
    split; [vm_compute; reflexivity|].
    split; [vm_compute; reflexivity|].
    split; vm_compute; reflexivity.
Qed.

Lemma chain_evaluation_witness :
  operator state_2_plus_3 = Some (py "+") /\
  exists cur v st',
    current_value state_2_plus_3 = Ok cur /\
    _apply_operator (acc state_2_plus_3) cur (py "+") = Ok v /\
    set_operator (py "*") state_2_plus_3 = Ok st' /\
    acc st' = v /\
    operator st' = Some (py "*") /\
    awaiting_operand st' = true.
Proof.
  split; [reflexivity|].
  apply (proj1 chain_evaluation state_2_plus_3 (py "*") (py "+")).
  reflexivity.
Defined.

(** ** The states the other handlers return *)

Lemma begin_entry_flags (st : State) :
  just_evaluated (begin_entry st) = false /\
  awaiting_operand (begin_entry st) = false.
Proof.
  unfold begin_entry.
  destruct st as [a c o lo ld je aw hi dv ba]; simpl.
  destruct (je && is_none o); simpl; [auto|].
  destruct aw; simpl; auto.
Qed.

Lemma begin_entry_current (st : State) :
  current (begin_entry st) = current st \/ current (begin_entry st) = py "0".
Proof.
  unfold begin_entry.
  destruct st as [a c o lo ld je aw hi dv ba]; simpl.
  destruct (je && is_none o); simpl; [auto|].
  destruct aw; simpl; auto.
Qed.

Lemma append_digit_result (d : pystr) (st : State) :
  exists shown label,
    _append_digit d st =
    Ok (mkState (acc (begin_entry st))
          (appended (current (begin_entry st)) d)
          (operator (begin_entry st)) (last_operator (begin_entry st))
          (last_operand (begin_entry st)) false false
          (negb (str_eqb (appended (current (begin_entry st)) d) (py "0")))
          shown label).
Proof.
  unfold _append_digit, appended.
  destruct (begin_entry_flags st) as [Hj Ha].
  destruct (str_eqb (current (begin_entry st)) (py "-0")
            || str_eqb (current (begin_entry st)) (py "0"));
    step_set_current; rewrite Hj, Ha; eexists; eexists; reflexivity.
Qed.

Lemma input_dot_result (st : State) :
  (char_in 46 (current (begin_entry st)) = true /\
   input_dot st = Ok (begin_entry st)) \/
  (char_in 46 (current (begin_entry st)) = false /\
   exists shown label,
     input_dot st =
     Ok (mkState (acc (begin_entry st))
           (current (begin_entry st) ++ py ".")
           (operator (begin_entry st)) (last_operator (begin_entry st))
           (last_operand (begin_entry st)) false false
           (negb (str_eqb (current (begin_entry st) ++ py ".") (py "0")))
           shown label)).
Proof.
  unfold input_dot.
  destruct (begin_entry_flags st) as [Hj Ha].
  destruct (char_in 46 (current (begin_entry st))); simpl.
  - left; auto.
  - right; split; [reflexivity|].
    step_set_current; rewrite Hj, Ha; eexists; eexists; reflexivity.
Qed.

Lemma toggle_sign_result (st : State) :
  exists hi shown label,
    toggle_sign st =
    Ok (mkState (acc st) (toggled (current st)) (operator st)
          (last_operator st) (last_operand st) (just_evaluated st)
          (awaiting_operand st) hi shown label).
Proof.
  unfold toggle_sign, toggled.
  destruct (startswith (current st) (py "-")).
  - step_set_current. eexists; eexists; eexists; reflexivity.
  - destruct (negb (str_eqb (current st) (py "0"))).
    + step_set_current. eexists; eexists; eexists; reflexivity.
    + destruct st; simpl. eexists; eexists; eexists; reflexivity.
Qed.

Lemma percent_result (st : State) :
  match pyfloat (replace_char 44 46 (current st)) with
  | Ok cur =>
      exists shown label,
        percent st =
        Ok (mkState (acc st) (_format_number (percent_value st cur))
              (operator st) (last_operator st) (last_operand st)
              (just_evaluated st) (awaiting_operand st)
              (negb (str_eqb (_format_number (percent_value st cur)) (py "0")))
              shown label)
  | Raise _ => percent st = Ok st
  end.
Proof.
  unfold percent, percent_value.
  destruct (pyfloat_cases (replace_char 44 46 (current st))) as [[cur E]|E];
    rewrite E; simpl; [|reflexivity].
  rewrite div_hundred_ok.
  destruct st as [a c o lo ld je aw hi dv ba]; simpl.
  destruct o; simpl; step_set_current; eexists; eexists; reflexivity.
Qed.

Lemma clear_entry_result (st : State) :
  has_input st || just_evaluated st = true ->
  exists shown label,
    clear_entry_or_all st =
    Ok (mkState (acc st) (py "0") (operator st) (last_operator st)
          (last_operand st) false (awaiting_operand st) false shown label).
Proof.
  intros H. unfold clear_entry_or_all. rewrite H.
  step_set_current. simpl. rewrite update_display_ok.
  eexists; eexists; reflexivity.
Qed.

Lemma clear_all_result (st : State) :
  has_input st || just_evaluated st = false ->
  exists shown label,
    clear_entry_or_all st =
    Ok (mkState zero (current st) None None None false false
          (negb (str_eqb (current st) (py "0"))) shown label).
Proof.
  intros H. unfold clear_entry_or_all. rewrite H.
  rewrite update_display_ok.
  eexists; eexists; reflexivity.
Qed.

Lemma backspace_result (st : State) :
  (just_evaluated st = true /\ backspace st = Ok st) \/
  (just_evaluated st = false /\
   exists shown label,
     backspace st =
     Ok (mkState (acc st) (erased (current st)) (operator st)
           (last_operator st) (last_operand st) false (awaiting_operand st)
           (negb (str_eqb (erased (current st)) (py "0"))) shown label)).
Proof.
  unfold backspace, erased.
  destruct (just_evaluated st) eqn:Hj; [left; auto|right].
  split; [reflexivity|].
  destruct ((len (current st) <=? 1)%Z
            || ((len (current st) =? 2)%Z && startswith (current st) (py "-")));
    step_set_current; rewrite Hj; eexists; eexists; reflexivity.
Qed.

(** Every run to a state shows that the state is reachable. *)
Lemma reachable_run (evs : list event) :
  forall st st', reachable st -> run evs st = Ok st' -> reachable st'.
Proof.
  induction evs as [|ev rest IH]; intros st st' Hr Hrun; simpl in Hrun.
  - inversion Hrun; subst; assumption.
  - destruct (handle ev st) as [s1|e] eqn:E; simpl in Hrun; [|discriminate].
    eapply IH; [|eassumption].
    eapply reachable_step; eassumption.
Qed.

Lemma state_5_plus_3_eq_run :
  run [EDigit D5; EOperator Add; EDigit D3; EEquals] initial
  = Ok state_5_plus_3_eq.
Proof. vm_compute. reflexivity. Qed.

Lemma state_12_run : run [EDigit D1; EDigit D2] initial = Ok state_12.
Proof. vm_compute. reflexivity. Qed.

Lemma state_error_run :
  run [EDigit D5; EOperator Div; EDigit D0; EEquals] initial = Ok state_error.
Proof. vm_compute. reflexivity. Qed.

Lemma state_2_plus_eq_run :
  run [EDigit D2; EOperator Add; EEquals] initial = Ok state_2_plus_eq.
Proof. vm_compute. reflexivity. Qed.

Lemma begin_entry_last (st : State) :
  (last_operator (begin_entry st) = last_operator st /\
   last_operand (begin_entry st) = last_operand st) \/
  (last_operator (begin_entry st) = None /\
   last_operand (begin_entry st) = None).
Proof.
  unfold begin_entry.
  destruct st as [a c o lo ld je aw hi dv ba]; simpl.
  destruct (je && is_none o); simpl; [auto|].
  destruct aw; simpl; auto.
Qed.

(** C2. Repeat-equals: with no operator pending and a remembered operator and
    operand, [equals] formats [_apply_operator] of the parsed current input,
    the remembered operand and the remembered operator; with no operator
    pending and nothing remembered it formats the parsed current input
    itself; only [equals] with an operator pending sets what is remembered;
    and 5, +, 3, =, = shows 8, then 11. *)
Theorem repeat_equals :
  (forall (st : State) (lop : pystr) (lod : float),
      operator st = None ->
      last_operator st = Some lop ->
      last_operand st = Some lod ->
      exists r st',
        _apply_operator (value_or_zero (current st)) lod lop = Ok r /\
        equals st = Ok st' /\
        current st' = _format_number r) /\
  (forall st : State,
      operator st = None ->
      last_operator st = None \/ last_operand st = None ->
      exists st',
        equals st = Ok st' /\
        current st' = _format_number (value_or_zero (current st))) /\
  (forall (st st' : State) (ev : event),
      handle ev st = Ok st' ->
      (last_operator st' = last_operator st /\
       last_operand st' = last_operand st) \/
      (last_operator st' = None /\ last_operand st' = None) \/
      (ev = EEquals /\
       exists pending,
         operator st = Some pending /\
         last_operator st' = Some pending /\
         last_operand st' = Some (value_or_zero (current st)))) /\
  (exists s1 s2,
      run [EDigit D5; EOperator Add; EDigit D3; EEquals] initial = Ok s1 /\
      current s1 = py "8" /\ display_var s1 = py "8" /\
      handle EEquals s1 = Ok s2 /\
      current s2 = py "11" /\ display_var s2 = py "11").
Proof.
  split; [|split; [|split]].
  - intros st lop lod Ho Hlo Hld.
    destruct (equals_result st) as (r & shown & label & Hr & He).
    rewrite Ho, Hlo, Hld in Hr.
    exists r. eexists. split; [exact Hr|]. split; [exact He|]. reflexivity.
  - intros st Ho Hl.
    destruct (equals_result st) as (r & shown & label & Hr & He).
    rewrite Ho in Hr.
    assert (r = value_or_zero (current st)) as ->.
    { destruct Hl as [Hl|Hl]; rewrite Hl in Hr;
        [|destruct (last_operator st)]; assumption. }
    eexists. split; [exact He|]. reflexivity.
  - intros st st' ev H.
    destruct ev; simpl in H.
    + destruct (append_digit_result (digit_str d) st) as (sh & lb & E).
      rewrite E in H; inversion H; subst; simpl.
      destruct (begin_entry_last st) as [[-> ->]|[-> ->]]; auto.
    + destruct (input_dot_result st) as [[_ E]|[_ (sh & lb & E)]];
        rewrite E in H; inversion H; subst; simpl;
        destruct (begin_entry_last st) as [[-> ->]|[-> ->]]; auto.
    + destruct (toggle_sign_result st) as (hi & sh & lb & E).
      rewrite E in H; inversion H; subst; simpl; auto.
    + pose proof (percent_result st) as E.
      destruct (pyfloat (replace_char 44 46 (current st))).
      * destruct E as (sh & lb & E).
        rewrite E in H; inversion H; subst; simpl; auto.
      * rewrite E in H; inversion H; subst; auto.
    + destruct (set_operator_result (op_str o) st) as (v & sh & lb & _ & E).
      rewrite E in H; inversion H; subst; simpl; auto.
    + destruct (equals_result st) as (r & sh & lb & _ & E).
      rewrite E in H; inversion H; subst; simpl.
      destruct (operator st) as [pending|]; [|auto].
      right; right. split; [reflexivity|]. exists pending. auto.
    + destruct (has_input st || just_evaluated st) eqn:C.
      * destruct (clear_entry_result st C) as (sh & lb & E).
        rewrite E in H; inversion H; subst; simpl; auto.
      * destruct (clear_all_result st C) as (sh & lb & E).
        rewrite E in H; inversion H; subst; simpl; auto.
    + destruct (backspace_result st) as [[_ E]|[_ (sh & lb & E)]];
        rewrite E in H; inversion H; subst; simpl; auto.
  - eexists; eexists.
    split; [apply state_5_plus_3_eq_run|].
    split; [vm_compute; reflexivity|].
    split; [vm_compute; reflexivity|].
    split; [vm_compute; reflexivity|].
    split; vm_compute; reflexivity.
Qed.

Lemma repeat_equals_witness :
  (operator state_5_plus_3_eq = None /\
   last_operator state_5_plus_3_eq = Some (py "+") /\
   last_operand state_5_plus_3_eq = Some (float_of_Z 3) /\
   exists r st',
     _apply_operator (value_or_zero (current state_5_plus_3_eq))
       (float_of_Z 3) (py "+") = Ok r /\
     equals state_5_plus_3_eq = Ok st' /\
     current st' = _format_number r) /\
  (operator initial = None /\
   (last_operator initial = None \/ last_operand initial = None) /\
   exists st',
     equals initial = Ok st' /\
     current st' = _format_number (value_or_zero (current initial))) /\
  (handle EEquals state_2_plus_3 = Ok state_2_plus_3_eq /\
   ((last_operator state_2_plus_3_eq = last_operator state_2_plus_3 /\
     last_operand state_2_plus_3_eq = last_operand state_2_plus_3) \/
    (last_operator state_2_plus_3_eq = None /\
     last_operand state_2_plus_3_eq = None) \/
    (EEquals = EEquals /\
     exists pending,
       operator state_2_plus_3 = Some pending /\
       last_operator state_2_plus_3_eq = Some pending /\
       last_operand state_2_plus_3_eq
       = Some (value_or_zero (current state_2_plus_3))))).
Proof.
  split; [|split].
  - split; [reflexivity|]. split; [reflexivity|]. split; [reflexivity|].
    apply (proj1 repeat_equals state_5_plus_3_eq (py "+") (float_of_Z 3));
      reflexivity.
  - split; [reflexivity|]. split; [left; reflexivity|].
    apply (proj1 (proj2 repeat_equals) initial);
      [reflexivity | left; reflexivity].
  - split; [vm_compute; reflexivity|].
    apply (proj1 (proj2 (proj2 repeat_equals)) state_2_plus_3 _ EEquals).
    vm_compute; reflexivity.
Defined.

Lemma state_2_plus_3_eq_run :
  run [EDigit D2; EOperator Add; EDigit D3; EEquals] initial
  = Ok state_2_plus_3_eq.
Proof. vm_compute. reflexivity. Qed.

Lemma state_error_toggled_run :
  run [EDigit D5; EOperator Div; EDigit D0; EEquals; EToggleSign] initial
  = Ok state_error_toggled.
Proof. vm_compute. reflexivity. Qed.

(** C10. [equals] never changes the accumulator; after 2, +, 3, = it is
    still 2, the result 5 being in the current input only. *)
Theorem equals_keeps_accumulator :
  (forall st : State, exists st', equals st = Ok st' /\ acc st' = acc st) /\
  (exists st,
      run [EDigit D2; EOperator Add; EDigit D3; EEquals] initial = Ok st /\
      acc st = float_of_Z 2 /\ current st = py "5").
Proof.
  split.
  - intros st.
    destruct (equals_result st) as (r & shown & label & _ & E).
    eexists. split; [exact E|]. reflexivity.
  - exists state_2_plus_3_eq.
    split; [apply state_2_plus_3_eq_run|]. split; reflexivity.
Qed.

(** C4. Division by zero: [_apply_operator a 0.0 "/"] is the positive
    infinity for every [a], of either zero; [_format_number] maps that
    infinity to the error text; and 5, /, 0, = ends with the error text as
    the current input. *)
Theorem division_by_zero :
  (forall (a : float) (s : bool),
      _apply_operator a (S754_zero s) (py "/") = Ok pos_inf) /\
  _format_number pos_inf = ERROR_TEXT /\
  (exists st,
      run [EDigit D5; EOperator Div; EDigit D0; EEquals] initial = Ok st /\
      current st = ERROR_TEXT /\ display_var st = ERROR_TEXT).
Proof.
  split; [|split].
  - intros a s. reflexivity.
  - reflexivity.
  - exists state_error. split; [apply state_error_run|]. split; reflexivity.
Qed.

(** C8. Two-tier clear: with [has_input] or [just_evaluated],
    [clear_entry_or_all] puts "0" in the current input and clears both flags,
    and leaves the operator, the accumulator, the remembered operator and
    operand and [awaiting_operand] as they were; with neither, it gives every
    field its initial value, except the current input, which is kept, and
    [has_input], which is recomputed from it. *)
Theorem two_tier_clear :
  (forall st : State,
      has_input st = true \/ just_evaluated st = true ->
      exists st',
        clear_entry_or_all st = Ok st' /\
        current st' = py "0" /\
        just_evaluated st' = false /\ has_input st' = false /\
        operator st' = operator st /\ acc st' = acc st /\
        last_operator st' = last_operator st /\
        last_operand st' = last_operand st /\
        awaiting_operand st' = awaiting_operand st) /\
  (forall st : State,
      has_input st = false -> just_evaluated st = false ->
      exists st',
        clear_entry_or_all st = Ok st' /\
        acc st' = acc initial /\ operator st' = operator initial /\
        last_operator st' = last_operator initial /\
        last_operand st' = last_operand initial /\
        just_evaluated st' = just_evaluated initial /\
        awaiting_operand st' = awaiting_operand initial /\
        current st' = current st /\
        has_input st' = negb (str_eqb (current st) (py "0"))).
Proof.
  split.
  - intros st H.
    assert (C : has_input st || just_evaluated st = true).
    { destruct H as [-> | ->]; [reflexivity | apply orb_true_r]. }
    destruct (clear_entry_result st C) as (shown & label & E).
    eexists. split; [exact E|]. simpl. repeat (split; [reflexivity|]).
    reflexivity.
  - intros st Hi Hj.
    assert (C : has_input st || just_evaluated st = false).
    { rewrite Hi, Hj. reflexivity. }
    destruct (clear_all_result st C) as (shown & label & E).
    eexists. split; [exact E|]. simpl. repeat (split; [reflexivity|]).
    reflexivity.
Qed.

Lemma two_tier_clear_witness :
  ((has_input state_12 = true \/ just_evaluated state_12 = true) /\
   exists st',
     clear_entry_or_all state_12 = Ok st' /\
     current st' = py "0" /\
     just_evaluated st' = false /\ has_input st' = false /\
     operator st' = operator state_12 /\ acc st' = acc state_12 /\
     last_operator st' = last_operator state_12 /\
     last_operand st' = last_operand state_12 /\
     awaiting_operand st' = awaiting_operand state_12) /\
  (has_input initial = false /\ just_evaluated initial = false /\
   exists st',
     clear_entry_or_all initial = Ok st' /\
     acc st' = acc initial /\ operator st' = operator initial /\
     last_operator st' = last_operator initial /\
     last_operand st' = last_operand initial /\
     just_evaluated st' = just_evaluated initial /\
     awaiting_operand st' = awaiting_operand initial /\
     current st' = current initial /\
     has_input st' = negb (str_eqb (current initial) (py "0"))).
Proof.
  split.
  - split; [left; reflexivity|].
    apply (proj1 two_tier_clear state_12). left; reflexivity.
  - split; [reflexivity|]. split; [reflexivity|].
    apply (proj2 two_tier_clear initial); reflexivity.
Defined.

(** ** Totality and the text that is no number *)

Lemma handle_total (ev : event) (st : State) :
  exists st', handle ev st = Ok st'.
Proof.
  destruct ev; simpl.
  - destruct (append_digit_result (digit_str d) st) as (sh & lb & E); eauto.
  - destruct (input_dot_result st) as [[_ E]|[_ (sh & lb & E)]]; eauto.
  - destruct (toggle_sign_result st) as (hi & sh & lb & E); eauto.
  - pose proof (percent_result st) as E.
    destruct (pyfloat (replace_char 44 46 (current st)));
      [destruct E as (sh & lb & E)|]; eauto.
  - destruct (set_operator_result (op_str o) st) as (v & sh & lb & _ & E);
      eauto.
  - destruct (equals_result st) as (r & sh & lb & _ & E); eauto.
  - destruct (has_input st || just_evaluated st) eqn:C.
    + destruct (clear_entry_result st C) as (sh & lb & E); eauto.
    + destruct (clear_all_result st C) as (sh & lb & E); eauto.
  - destruct (backspace_result st) as [[_ E]|[_ (sh & lb & E)]]; eauto.
Qed.

Lemma value_or_zero_raise (s : pystr) (e : exn) :
  pyfloat s = Raise e -> value_or_zero s = zero.
Proof. unfold value_or_zero. intros ->. reflexivity. Qed.

(** C9, as the code has it. Every handler returns a state, for every event
    and every state, and raises nothing; when the current input is no
    number, [set_operator] and [equals] compute with [0.0]; [percent], which
    reads the current input with [,] replaced by [.], returns the state
    unchanged when that text is no number. *)
Theorem handlers_total_zero_default :
  (forall (ev : event) (st : State), exists st', handle ev st = Ok st') /\
  (forall (st : State) (o : pystr),
      pyfloat (current st) = Raise ValueError ->
      exists v st',
        match operator st with
        | Some pending => _apply_operator (acc st) zero pending = Ok v
        | None => v = zero
        end /\
        set_operator o st = Ok st' /\ acc st' = v) /\
  (forall st : State,
      pyfloat (current st) = Raise ValueError ->
      exists r st',
        match operator st with
        | Some pending => _apply_operator (acc st) zero pending = Ok r
        | None =>
            match last_operator st, last_operand st with
            | Some lop, Some lod => _apply_operator zero lod lop = Ok r
            | _, _ => r = zero
            end
        end /\
        equals st = Ok st' /\ current st' = _format_number r) /\
  (forall st : State,
      pyfloat (replace_char 44 46 (current st)) = Raise ValueError ->
      percent st = Ok st).
Proof.
  split; [|split; [|split]].
  - intros ev st. apply handle_total.
  - intros st o H.
    destruct (set_operator_result o st) as (v & sh & lb & Hv & E).
    rewrite (value_or_zero_raise _ _ H) in Hv.
    exists v. eexists. split; [exact Hv|]. split; [exact E|]. reflexivity.
  - intros st H.
    destruct (equals_result st) as (r & sh & lb & Hr & E).
    rewrite (value_or_zero_raise _ _ H) in Hr.
    exists r. eexists. split; [exact Hr|]. split; [exact E|]. reflexivity.
  - intros st H. pose proof (percent_result st) as E.
    rewrite H in E. exact E.
Qed.

Lemma handlers_total_zero_default_witness :
  (pyfloat (current state_error) = Raise ValueError /\
   exists v st',
     match operator state_error with
     | Some pending => _apply_operator (acc state_error) zero pending = Ok v
     | None => v = zero
     end /\
     set_operator (py "+") state_error = Ok st' /\ acc st' = v) /\
  (pyfloat (current state_error) = Raise ValueError /\
   exists r st',
     match operator state_error with
     | Some pending => _apply_operator (acc state_error) zero pending = Ok r
     | None =>
         match last_operator state_error, last_operand state_error with
         | Some lop, Some lod => _apply_operator zero lod lop = Ok r
         | _, _ => r = zero
         end
     end /\
     equals state_error = Ok st' /\ current st' = _format_number r) /\
  (pyfloat (replace_char 44 46 (current state_error)) = Raise ValueError /\
   percent state_error = Ok state_error).
Proof.
  split; [|split].
  - split; [vm_compute; reflexivity|].
    apply (proj1 (proj2 handlers_total_zero_default) state_error (py "+")).
    vm_compute; reflexivity.
  - split; [vm_compute; reflexivity|].
    apply (proj1 (proj2 (proj2 handlers_total_zero_default)) state_error).
    vm_compute; reflexivity.
  - split; [vm_compute; reflexivity|].
    apply (proj2 (proj2 (proj2 handlers_total_zero_default)) state_error).
    vm_compute; reflexivity.
Defined.

(** C9 as stated fails for [percent]: in the state after 5, /, 0, = the
    current input is the error text, which is no number, and [percent] leaves
    it there, where computing with [0.0] would write "0". *)
Lemma percent_not_zero_default :
  reachable state_error /\
  pyfloat (current state_error) = Raise ValueError /\
  percent state_error = Ok state_error /\
  _format_number (percent_value state_error zero) = py "0" /\
  current state_error <> py "0".
Proof.
  split; [exact (reachable_run _ _ _ reachable_initial state_error_run)|].
  split; [vm_compute; reflexivity|].
  split; [vm_compute; reflexivity|].
  split; [vm_compute; reflexivity|].
  vm_compute; discriminate.
Qed.

(** ** The two flags [operator] and [awaiting_operand] *)

(** C5 as stated fails: after 2, +, = no operator is pending and
    [awaiting_operand] is set. *)
Lemma operator_none_awaiting_reachable :
  reachable state_2_plus_eq /\
  operator state_2_plus_eq = None /\
  awaiting_operand state_2_plus_eq = true.
Proof.
  split; [exact (reachable_run _ _ _ reachable_initial state_2_plus_eq_run)|].
  split; reflexivity.
Qed.

Lemma toggled_zero : toggled (py "0") = py "0".
Proof. reflexivity. Qed.

Lemma erased_zero : erased (py "0") = py "0".
Proof. reflexivity. Qed.

Lemma percent_of_zero (st : State) (cur : float) :
  operator st = None ->
  pyfloat (replace_char 44 46 (py "0")) = Ok cur ->
  _format_number (percent_value st cur) = py "0".
Proof.
  intros Ho E. vm_compute in E. inversion E; subst.
  unfold percent_value. rewrite Ho. vm_compute. reflexivity.
Qed.

(** C5, as the code has it. In every reachable state, no pending operator
    together with [awaiting_operand] set occurs only while [just_evaluated]
    is set or the current input is "0": the flag is left over by an [equals]
    pressed right after an operator. *)
Theorem awaiting_without_operator :
  forall st : State,
    reachable st ->
    operator st = None -> awaiting_operand st = true ->
    just_evaluated st = true \/ current st = py "0".
Proof.
  intros st Hr. induction Hr as [|st ev st' Hr IH H].
  - intros _ H; discriminate H.
  - destruct ev; simpl in H.
    + destruct (append_digit_result (digit_str d) st) as (sh & lb & E).
      rewrite E in H; inversion H; subst; simpl. intros _ F; discriminate F.
    + destruct (begin_entry_flags st) as [_ Ha].
      destruct (input_dot_result st) as [[_ E]|[_ (sh & lb & E)]];
        rewrite E in H; inversion H; subst; simpl.
      * intros _ F. rewrite Ha in F. discriminate F.
      * intros _ F; discriminate F.
    + destruct (toggle_sign_result st) as (hi & sh & lb & E).
      rewrite E in H; inversion H; subst; simpl. intros Ho Ha.
      destruct (IH Ho Ha) as [Hj|Hc]; [left; exact Hj|right].
      rewrite Hc. apply toggled_zero.
    + pose proof (percent_result st) as E.
      destruct (pyfloat (replace_char 44 46 (current st))) as [cur|e] eqn:P.
      * destruct E as (sh & lb & E).
        rewrite E in H; inversion H; subst; simpl. intros Ho Ha.
        destruct (IH Ho Ha) as [Hj|Hc]; [left; exact Hj|right].
        rewrite Hc in P. apply percent_of_zero; assumption.
      * rewrite E in H; inversion H; subst. exact IH.
    + destruct (set_operator_result (op_str o) st) as (v & sh & lb & _ & E).
      rewrite E in H; inversion H; subst; simpl. intros F; discriminate F.
    + destruct (equals_result st) as (r & sh & lb & _ & E).
      rewrite E in H; inversion H; subst; simpl. intros _ _. left; reflexivity.
    + destruct (has_input st || just_evaluated st) eqn:C.
      * destruct (clear_entry_result st C) as (sh & lb & E).
        rewrite E in H; inversion H; subst; simpl. intros _ _.
        right; reflexivity.
      * destruct (clear_all_result st C) as (sh & lb & E).
        rewrite E in H; inversion H; subst; simpl. intros _ F; discriminate F.
    + destruct (backspace_result st) as [[_ E]|[Hj (sh & lb & E)]];
        rewrite E in H; inversion H; subst; simpl.
      * exact IH.
      * intros Ho Ha. right.
        destruct (IH Ho Ha) as [Hj'|Hc]; [congruence|].
        rewrite Hc. apply erased_zero.
Qed.

Lemma awaiting_without_operator_witness :
  reachable state_2_plus_eq /\
  operator state_2_plus_eq = None /\
  awaiting_operand state_2_plus_eq = true /\
  (just_evaluated state_2_plus_eq = true \/ current state_2_plus_eq = py "0").
Proof.
  split; [exact (reachable_run _ _ _ reachable_initial state_2_plus_eq_run)|].
  split; [reflexivity|]. split; [reflexivity|].
  apply (awaiting_without_operator state_2_plus_eq).
  - exact (reachable_run _ _ _ reachable_initial state_2_plus_eq_run).
  - reflexivity.
  - reflexivity.
Defined.

(** ** The characters of a formatted number *)

Section Characters.

Variable Q : char -> Prop.

Lemma Forall_firstn_list (n : nat) (s : pystr) :
  Forall Q s -> Forall Q (firstn n s).
Proof.
  revert s; induction n as [|n IH]; intros s H; simpl; [constructor|].
  destruct H; constructor; auto.
Qed.

Lemma Forall_skipn_list (n : nat) (s : pystr) :
  Forall Q s -> Forall Q (skipn n s).
Proof.
  revert s; induction n as [|n IH]; intros s H; simpl; [assumption|].
  destruct H; [constructor|auto].
Qed.

Lemma Forall_repeat_char (c : char) (n : nat) : Q c -> Forall Q (repeat c n).
Proof. intros H; induction n; simpl; constructor; auto. Qed.

Lemma Forall_rstrip (chars s : pystr) : Forall Q s -> Forall Q (rstrip chars s).
Proof.
  induction 1 as [|c t Hc Ht IH]; simpl; [constructor|].
  destruct (rstrip chars t) as [|d t'].
  - destruct (char_in c chars); constructor; auto.
  - constructor; auto.
Qed.

Hypothesis Q_digit : forall c, is_digit c = true -> Q c.

Lemma digit_char_mod (n : Z) : is_digit (digit_char (n mod 10)) = true.
Proof.
  unfold is_digit, digit_char.
  pose proof (Z.mod_pos_bound n 10 ltac:(lia)).
  apply andb_true_intro; split; [apply Z.leb_le | apply Z.leb_le]; lia.
Qed.

Lemma digits_acc_chars (fuel : nat) :
  forall n acc, Forall Q acc -> Forall Q (digits_acc fuel n acc).
Proof.
  induction fuel as [|f IH]; intros n acc H; simpl; [assumption|].
  destruct (n <? 10)%Z.
  - constructor; [apply Q_digit, digit_char_mod | assumption].
  - apply IH. constructor; [apply Q_digit, digit_char_mod | assumption].
Qed.

Lemma decimal_chars (n : Z) : Forall Q (decimal n).
Proof. unfold decimal. apply digits_acc_chars. constructor. Qed.

Lemma zfill_chars (w : Z) (s : pystr) : Forall Q s -> Forall Q (zfill w s).
Proof.
  intros H. unfold zfill. apply Forall_app. split; [|assumption].
  apply Forall_repeat_char. apply Q_digit. reflexivity.
Qed.

Lemma float_digits_chars (P : Z) (v : float) :
  Forall Q (fst (float_digits P v)).
Proof.
  unfold float_digits.
  destruct v as [s|s| |s m e]; simpl;
    try (apply zfill_chars, decimal_chars).
  destruct (sig_digits P (ratio_of_finite m e)) as [D X]; simpl.
  apply zfill_chars, decimal_chars.
Qed.

Hypothesis Q_minus : Q 45.
Hypothesis Q_plus : Q 43.
Hypothesis Q_e : Q 101.

Lemma sign_str_chars (s : bool) : Forall Q (sign_str s).
Proof. destruct s; simpl; repeat constructor; assumption. Qed.

Lemma fmt_exp_chars (x : Z) : Forall Q (fmt_exp x).
Proof.
  unfold fmt_exp. apply Forall_app; split; [repeat constructor; assumption|].
  apply Forall_app; split.
  - destruct (x <? 0)%Z; repeat constructor; assumption.
  - apply zfill_chars, decimal_chars.
Qed.

End Characters.

Lemma dots_app (s t : pystr) : dots (s ++ t) = (dots s + dots t)%nat.
Proof. apply count_occ_app. Qed.

Lemma dots_none (s : pystr) : Forall (fun c => c <> 46%Z) s -> dots s = 0%nat.
Proof.
  induction 1 as [|c t Hc Ht IH]; [reflexivity|].
  unfold count_char in *. rewrite count_occ_cons_neq; assumption.
Qed.

Lemma digit_not_point (c : char) : is_digit c = true -> c <> 46%Z.
Proof.
  unfold is_digit. intros H. apply andb_prop in H. destruct H as [H _].
  apply Z.leb_le in H. lia.
Qed.

Lemma dots_cons_le (c : char) (s : pystr) :
  (dots s <= dots (c :: s) <= S (dots s))%nat.
Proof.
  unfold count_char. simpl. destruct (Z.eq_dec c 46); lia.
Qed.

Lemma dots_rstrip (chars s : pystr) : (dots (rstrip chars s) <= dots s)%nat.
Proof.
  induction s as [|c t IH]; simpl; [lia|].
  destruct (rstrip chars t) as [|d t'] eqn:E.
  - destruct (char_in c chars).
    + unfold count_char; simpl; lia.
    + unfold count_char in *; simpl in *. destruct (Z.eq_dec c 46); lia.
  - unfold count_char in *. simpl in *. destruct (Z.eq_dec c 46); lia.
Qed.

Lemma dots_tl (s : pystr) : (dots (drop_first s) <= dots s)%nat.
Proof.
  destruct s as [|c t]; simpl; [lia|]. apply dots_cons_le.
Qed.

Lemma dots_removelast (s : pystr) : (dots (drop_last s) <= dots s)%nat.
Proof.
  unfold drop_last.
  induction s as [|c t IH]; simpl; [lia|].
  destruct t as [|d t'].
  - unfold count_char; simpl; lia.
  - unfold count_char in *. simpl in *.
    destruct (Z.eq_dec c 46); lia.
Qed.

Lemma dots_char_in (s : pystr) : char_in 46 s = false -> dots s = 0%nat.
Proof.
  intros H. apply dots_none. apply Forall_forall. intros c Hc E. subst c.
  unfold char_in in H.
  assert (X : existsb (Z.eqb 46) s = true).
  { apply existsb_exists. exists 46%Z. split; [assumption|reflexivity]. }
  congruence.
Qed.

Lemma dots_strip_fraction (frac : pystr) :
  Forall (fun c => c <> 46%Z) frac -> (dots (strip_fraction frac) <= 1)%nat.
Proof.
  intros H. unfold strip_fraction.
  eapply Nat.le_trans; [apply dots_rstrip|].
  eapply Nat.le_trans; [apply dots_rstrip|].
  rewrite dots_app, (dots_none frac H). vm_compute. lia.
Qed.

Lemma dots_digits (P : Z) (v : float) (n : nat) :
  dots (fst (float_digits P v)) = 0%nat /\
  dots (firstn n (fst (float_digits P v))) = 0%nat /\
  dots (skipn n (fst (float_digits P v))) = 0%nat.
Proof.
  pose proof (float_digits_chars (fun c => c <> 46%Z) digit_not_point P v) as H.
  split; [apply dots_none; assumption|].
  split; apply dots_none;
    [apply Forall_firstn_list | apply Forall_skipn_list]; assumption.
Qed.

Lemma dots_sign (s : bool) : dots (sign_str s) = 0%nat.
Proof. destruct s; reflexivity. Qed.

Lemma dots_fmt_exp (x : Z) : dots (fmt_exp x) = 0%nat.
Proof.
  apply dots_none.
  apply (fmt_exp_chars (fun c => c <> 46%Z) digit_not_point); lia.
Qed.

Lemma dots_fmt_nonfinite (v : float) : dots (fmt_nonfinite v) = 0%nat.
Proof. destruct v as [s|[|]| |s m e]; reflexivity. Qed.

Lemma dots_fmt_e (p : Z) (v : float) : (dots (fmt_e p v) <= 1)%nat.
Proof.
  unfold fmt_e. destruct (is_finite v); [|rewrite dots_fmt_nonfinite; lia].
  destruct (dots_digits (p + 1) v 1) as (_ & H1 & H2).
  destruct (float_digits (p + 1) v) as [ds X]; cbn [fst] in *.
  rewrite !dots_app, dots_sign, H1, dots_fmt_exp.
  destruct (0 <? p)%Z.
  - rewrite dots_app, H2. vm_compute. lia.
  - vm_compute. lia.
Qed.

Lemma dots_fmt_f (p : Z) (v : float) : (dots (fmt_f p v) <= 1)%nat.
Proof.
  unfold fmt_f. destruct (is_finite v); [|rewrite dots_fmt_nonfinite; lia].
  rewrite !dots_app, dots_sign.
  rewrite (dots_none (decimal _));
    [|apply (decimal_chars (fun c => c <> 46%Z) digit_not_point)].
  destruct (0 <? p)%Z; [|vm_compute; lia].
  rewrite dots_app.
  rewrite (dots_none (zfill _ _)).
  - vm_compute. lia.
  - apply (zfill_chars (fun c => c <> 46%Z) digit_not_point).
    apply (decimal_chars (fun c => c <> 46%Z) digit_not_point).
Qed.

Lemma dots_fmt_g (p : Z) (v : float) : (dots (fmt_g p v) <= 1)%nat.
Proof.
  unfold fmt_g. destruct (is_finite v); [|rewrite dots_fmt_nonfinite; lia].
  set (P := if (p =? 0)%Z then 1%Z else p).
  pose proof (float_digits_chars (fun c => c <> 46%Z) digit_not_point P v) as H.
  destruct (float_digits P v) as [ds X]; cbn [fst] in H.
  destruct ((-4 <=? X)%Z && (X <? P)%Z).
  - rewrite !dots_app, dots_sign.
    assert (Hip : dots (if (X <? 0)%Z then py "0"
                        else firstn (Z.to_nat (X + 1)) ds) = 0%nat).
    { destruct (X <? 0)%Z; [reflexivity|].
      apply dots_none, Forall_firstn_list, H. }
    rewrite Hip.
    assert (Hfp : Forall (fun c => c <> 46%Z)
                    (if (X <? 0)%Z then repeat 48%Z (Z.to_nat (- X - 1)) ++ ds
                     else skipn (Z.to_nat (X + 1)) ds)).
    { destruct (X <? 0)%Z.
      - apply Forall_app; split; [apply Forall_repeat_char; lia | exact H].
      - apply Forall_skipn_list, H. }
    pose proof (dots_strip_fraction _ Hfp). lia.
  - rewrite !dots_app, dots_sign, dots_fmt_exp.
    rewrite (dots_none (firstn 1 ds)); [|apply Forall_firstn_list, H].
    pose proof (dots_strip_fraction (skipn 1 ds)
                  (Forall_skipn_list _ 1 ds H)). lia.
Qed.

(** A formatted number has at most one point. *)
Lemma dots_format_number (v : float) : (dots (_format_number v) <= 1)%nat.
Proof.
  unfold _format_number.
  destruct (float_eq v pos_inf || float_ne v v); [vm_compute; lia|].
  set (s1 := if char_in 101 (fmt_g 12 v) || char_in 69 (fmt_g 12 v)
             then rstrip (py ".") (rstrip (py "0") (fmt_f 12 v))
             else fmt_g 12 v).
  assert (H1 : (dots s1 <= 1)%nat).
  { unfold s1. destruct (char_in 101 (fmt_g 12 v) || char_in 69 (fmt_g 12 v)).
    - eapply Nat.le_trans; [apply dots_rstrip|].
      eapply Nat.le_trans; [apply dots_rstrip|]. apply dots_fmt_f.
    - apply dots_fmt_g. }
  set (s2 := if char_in 46 s1 then rstrip (py ".") (rstrip (py "0") s1) else s1).
  assert (H2 : (dots s2 <= 1)%nat).
  { unfold s2. destruct (char_in 46 s1); [|exact H1].
    eapply Nat.le_trans; [apply dots_rstrip|].
    eapply Nat.le_trans; [apply dots_rstrip|]. exact H1. }
  destruct (12 <? len s2)%Z; [apply dots_fmt_e | exact H2].
Qed.

(** ** At most one point in the current input *)

Lemma dots_digit_str (d : digit) : dots (digit_str d) = 0%nat.
Proof. destruct d; reflexivity. Qed.

Lemma dots_appended (s d : pystr) :
  dots d = 0%nat -> (dots (appended s d) <= dots s)%nat.
Proof.
  intros Hd. unfold appended.
  destruct (str_eqb s (py "-0") || str_eqb s (py "0")).
  - rewrite dots_app, Hd. destruct (startswith s (py "-")); vm_compute; lia.
  - rewrite dots_app, Hd. lia.
Qed.

Lemma dots_toggled (s : pystr) : (dots (toggled s) <= dots s)%nat.
Proof.
  unfold toggled. destruct (startswith s (py "-")); [apply dots_tl|].
  destruct (negb (str_eqb s (py "0"))); [|lia].
  rewrite dots_app. vm_compute. lia.
Qed.

Lemma dots_erased_le (s : pystr) : (dots s <= 1)%nat -> (dots (erased s) <= 1)%nat.
Proof.
  intros H. unfold erased.
  destruct ((len s <=? 1)%Z || ((len s =? 2)%Z && startswith s (py "-"))).
  - vm_compute. lia.
  - pose proof (dots_removelast s). lia.
Qed.

Lemma dots_begin_entry (st : State) :
  (dots (current st) <= 1)%nat -> (dots (current (begin_entry st)) <= 1)%nat.
Proof.
  intros H. destruct (begin_entry_current st) as [-> | ->];
    [assumption | vm_compute; lia].
Qed.

(** C6 as stated fails: after 5, /, 0, =, +/- the current input is the error
    text with a sign before it, which is neither the error text nor a
    number. *)
Lemma signed_error_text_reachable :
  reachable state_error_toggled /\
  current state_error_toggled <> ERROR_TEXT /\
  pyfloat (current state_error_toggled) = Raise ValueError.
Proof.
  split;
    [exact (reachable_run _ _ _ reachable_initial state_error_toggled_run)|].
  split; [vm_compute; discriminate | vm_compute; reflexivity].
Qed.

(** Away from the error text too: a formatted number in exponent notation
    can be edited, and what is left need not be a number. *)
Lemma exponent_cut_reachable :
  exists st,
    run exponent_cut initial = Ok st /\
    current st = py "1.000000e+" /\
    pyfloat (current st) = Raise ValueError.
Proof.
  eexists. split; [vm_compute; reflexivity|].
  split; vm_compute; reflexivity.
Qed.

(** C6, as the code has it. In every reachable state the current input has
    at most one point. *)
Theorem current_at_most_one_point :
  forall st : State, reachable st -> (dots (current st) <= 1)%nat.
Proof.
  intros st Hr. induction Hr as [|st ev st' Hr IH H].
  - vm_compute. lia.
  - destruct ev; simpl in H.
    + destruct (append_digit_result (digit_str d) st) as (sh & lb & E).
      rewrite E in H; inversion H; subst; simpl.
      pose proof (dots_appended (current (begin_entry st)) (digit_str d)
                    (dots_digit_str d)).
      pose proof (dots_begin_entry st IH). lia.
    + destruct (input_dot_result st) as [[_ E]|[C (sh & lb & E)]];
        rewrite E in H; inversion H; subst; simpl.
      * apply dots_begin_entry, IH.
      * rewrite dots_app, (dots_char_in _ C). vm_compute. lia.
    + destruct (toggle_sign_result st) as (hi & sh & lb & E).
      rewrite E in H; inversion H; subst; simpl.
      pose proof (dots_toggled (current st)). lia.
    + pose proof (percent_result st) as E.
      destruct (pyfloat (replace_char 44 46 (current st))) as [cur|e].
      * destruct E as (sh & lb & E).
        rewrite E in H; inversion H; subst; simpl. apply dots_format_number.
      * rewrite E in H; inversion H; subst. exact IH.
    + destruct (set_operator_result (op_str o) st) as (v & sh & lb & _ & E).
      rewrite E in H; inversion H; subst; simpl. exact IH.
    + destruct (equals_result st) as (r & sh & lb & _ & E).
      rewrite E in H; inversion H; subst; simpl. apply dots_format_number.
    + destruct (has_input st || just_evaluated st) eqn:C.
      * destruct (clear_entry_result st C) as (sh & lb & E).
        rewrite E in H; inversion H; subst; simpl. vm_compute. lia.
      * destruct (clear_all_result st C) as (sh & lb & E).
        rewrite E in H; inversion H; subst; simpl. exact IH.
    + destruct (backspace_result st) as [[_ E]|[_ (sh & lb & E)]];
        rewrite E in H; inversion H; subst; simpl.
      * exact IH.
      * apply dots_erased_le, IH.
Qed.

Lemma current_at_most_one_point_witness :
  reachable state_error_toggled /\
  (dots (current state_error_toggled) <= 1)%nat.
Proof.
  split;
    [exact (reachable_run _ _ _ reachable_initial state_error_toggled_run)|].
  apply (current_at_most_one_point state_error_toggled).
  exact (reachable_run _ _ _ reachable_initial state_error_toggled_run).
Defined.

(** ** What [_format_number] returns *)

Lemma render_digit (c : char) : is_digit c = true -> rendered c.
Proof. unfold rendered, render_char. intros ->. reflexivity. Qed.

Lemma render_strip_fraction (frac : pystr) :
  Forall rendered frac -> Forall rendered (strip_fraction frac).
Proof.
  intros H. unfold strip_fraction. apply Forall_rstrip, Forall_rstrip.
  apply Forall_app; split; [repeat constructor | exact H].
Qed.

Lemma render_fmt_e (p : Z) (v : float) :
  is_finite v = true -> Forall rendered (fmt_e p v).
Proof.
  intros F. unfold fmt_e. rewrite F.
  pose proof (float_digits_chars rendered render_digit (p + 1) v) as H.
  destruct (float_digits (p + 1) v) as [ds X]; cbn [fst] in H.
  apply Forall_app; split; [apply sign_str_chars; reflexivity|].
  apply Forall_app; split; [apply Forall_firstn_list, H|].
  apply Forall_app; split.
  - destruct (0 <? p)%Z; [|constructor].
    apply Forall_app; split; [repeat constructor|apply Forall_skipn_list, H].
  - apply fmt_exp_chars; [exact render_digit | reflexivity ..].
Qed.

Lemma render_fmt_f (p : Z) (v : float) :
  is_finite v = true -> Forall rendered (fmt_f p v).
Proof.
  intros F. unfold fmt_f. rewrite F.
  apply Forall_app; split; [apply sign_str_chars; reflexivity|].
  apply Forall_app; split; [apply decimal_chars, render_digit|].
  destruct (0 <? p)%Z; [|constructor].
  apply Forall_app; split; [repeat constructor|].
  apply zfill_chars; [exact render_digit|apply decimal_chars, render_digit].
Qed.

Lemma render_fmt_g (p : Z) (v : float) :
  is_finite v = true -> Forall rendered (fmt_g p v).
Proof.
  intros F. unfold fmt_g. rewrite F.
  set (P := if (p =? 0)%Z then 1%Z else p).
  pose proof (float_digits_chars rendered render_digit P v) as H.
  destruct (float_digits P v) as [ds X]; cbn [fst] in H.
  destruct ((-4 <=? X)%Z && (X <? P)%Z).
  - apply Forall_app; split; [apply sign_str_chars; reflexivity|].
    apply Forall_app; split.
    + destruct (X <? 0)%Z; [repeat constructor|apply Forall_firstn_list, H].
    + apply render_strip_fraction. destruct (X <? 0)%Z.
      * apply Forall_app; split; [apply Forall_repeat_char; reflexivity|exact H].
      * apply Forall_skipn_list, H.
  - apply Forall_app; split; [apply sign_str_chars; reflexivity|].
    apply Forall_app; split; [apply Forall_firstn_list, H|].
    apply Forall_app; split.
    + apply render_strip_fraction, Forall_skipn_list, H.
    + apply fmt_exp_chars; [exact render_digit | reflexivity ..].
Qed.

Lemma finite_not_caught (v : float) :
  is_finite v = true -> float_eq v pos_inf || float_ne v v = false.
Proof.
  destruct v as [s|s| |s m e]; try discriminate; intros _.
  - reflexivity.
  - unfold float_eq, float_ne, SFeqb, pos_inf, SFcompare.
    rewrite Z.compare_refl.
    destruct s; rewrite Pos.compare_cont_refl; reflexivity.
Qed.

(** For a finite value [_format_number] returns a numeral: digits, signs,
    point and exponent mark only, hence never the error text. *)
Lemma format_number_finite (v : float) :
  is_finite v = true ->
  Forall (fun c => render_char c = true) (_format_number v) /\
  _format_number v <> ERROR_TEXT.
Proof.
  intros F.
  assert (H : Forall rendered (_format_number v)).
  { unfold _format_number. rewrite (finite_not_caught v F).
    set (s1 := if char_in 101 (fmt_g 12 v) || char_in 69 (fmt_g 12 v)
               then rstrip (py ".") (rstrip (py "0") (fmt_f 12 v))
               else fmt_g 12 v).
    assert (H1 : Forall rendered s1).
    { unfold s1.
      destruct (char_in 101 (fmt_g 12 v) || char_in 69 (fmt_g 12 v)).
      - apply Forall_rstrip, Forall_rstrip, render_fmt_f, F.
      - apply render_fmt_g, F. }
    destruct (char_in 46 s1).
    - destruct (12 <? len (rstrip (py ".") (rstrip (py "0") s1)))%Z;
        [apply render_fmt_e, F | apply Forall_rstrip, Forall_rstrip, H1].
    - destruct (12 <? len s1)%Z; [apply render_fmt_e, F | exact H1]. }
  split; [exact H|].
  intros E. rewrite E in H. inversion H as [|c t Hc Ht]; subst.
  vm_compute in Hc. discriminate Hc.
Qed.

(** The positive infinity and the undefined value give the error text. *)
Lemma format_number_caught :
  _format_number pos_inf = ERROR_TEXT /\ _format_number nan = ERROR_TEXT.
Proof. split; reflexivity. Qed.

(** C3 fails on the code for the negative infinity: the test of
    [_format_number] compares with the positive infinity only, so the
    negative one is formatted as a number, giving "-inf"; the state is
    reached by a product that overflows downwards. *)
Theorem format_number_negative_infinity :
  _format_number neg_inf = py "-inf" /\
  _format_number neg_inf <> ERROR_TEXT /\
  (exists st,
      run negative_overflow initial = Ok st /\
      current st = py "-inf" /\ display_var st = py "-inf").
Proof.
  split; [vm_compute; reflexivity|].
  split; [vm_compute; discriminate|].
  eexists. split; [vm_compute; reflexivity|].
  split; vm_compute; reflexivity.
Qed.

(** ** A text that is a number has no comma *)

Lemma transform_chars_comma (s : pystr) :
  In 44%Z s ->
  exists c, In c (transform_chars s) /\ (c = 44%Z \/ c = 63%Z).
Proof.
  induction s as [|a t IH]; cbn [transform_chars In]; [intros []|].
  intros H.
  destruct (a <? 127)%Z eqn:A.
  - destruct H as [->|H].
    + exists 44%Z. split; [left; reflexivity|left; reflexivity].
    + destruct (IH H) as (c & Hc & Hb). exists c. split; [right|]; assumption.
  - assert (Ht : In 44%Z t).
    { destruct H as [->|H]; [discriminate A|exact H]. }
    destruct (IH Ht) as (c & Hc & Hb).
    destruct (char_in a unicode_spaces).
    + exists c. split; [right|]; assumption.
    + destruct (unicode_decimal a).
      * exists c. split; [right|]; assumption.
      * exists 63%Z. split; [left; reflexivity|right; reflexivity].
Qed.

Lemma transform_comma (s : pystr) :
  In 44%Z s ->
  exists c, In c (transform_decimal_and_space s) /\ (c = 44%Z \/ c = 63%Z).
Proof.
  intros H. unfold transform_decimal_and_space.
  destruct (forallb (fun c => (c <? 128)%Z) s).
  - exists 44%Z. split; [exact H|left; reflexivity].
  - apply transform_chars_comma, H.
Qed.

Lemma lstrip_keeps (chars s : pystr) (c : char) :
  char_in c chars = false -> In c s -> In c (lstrip chars s).
Proof.
  intros Hc. induction s as [|a t IH]; simpl; [intros []|].
  intros H. destruct (char_in a chars) eqn:A; [|exact H].
  destruct H as [->|H]; [congruence|auto].
Qed.

Lemma rstrip_keeps (chars s : pystr) (c : char) :
  char_in c chars = false -> In c s -> In c (rstrip chars s).
Proof.
  intros Hc. induction s as [|a t IH]; simpl; [intros []|].
  intros H. destruct (rstrip chars t) as [|d t'] eqn:E.
  - destruct H as [->|H]; [rewrite Hc; left; reflexivity|].
    destruct (IH H).
  - destruct H as [->|H]; [left; reflexivity|right; auto].
Qed.

Lemma remove_underscores_keeps (s : pystr) (c : char) :
  c <> 95%Z ->
  forall prev u, remove_underscores prev s = Ok u -> In c s -> In c u.
Proof.
  intros Hc. induction s as [|a t IH]; intros prev u; simpl.
  - intros _ [].
  - destruct (a =? 95)%Z eqn:A.
    + destruct (is_digit prev); [|discriminate].
      intros H [->|Hin]; [apply Z.eqb_eq in A; contradiction|].
      eapply IH; eassumption.
    + destruct ((prev =? 95)%Z && negb (is_digit a)); [discriminate|].
      destruct (remove_underscores a t) as [r|e] eqn:E; simpl; [|discriminate].
      intros H Hin. inversion H; subst.
      destruct Hin as [->|Hin]; [left; reflexivity|right].
      eapply IH; eauto.
Qed.

Lemma take_sign_split (s r : pystr) (b : bool) :
  take_sign s = (b, r) -> exists pre, s = pre ++ r /\ Forall plain_char pre.
Proof.
  unfold take_sign. destruct s as [|c t].
  - intros H; inversion H; subst. exists []. split; [reflexivity|constructor].
  - destruct (c =? 45)%Z eqn:A.
    + intros H; inversion H; subst. apply Z.eqb_eq in A; subst.
      exists [45%Z]. split; [reflexivity|]. repeat constructor; discriminate.
    + destruct (c =? 43)%Z eqn:B; intros H; inversion H; subst.
      * apply Z.eqb_eq in B; subst.
        exists [43%Z]. split; [reflexivity|]. repeat constructor; discriminate.
      * exists []. split; [reflexivity|constructor].
Qed.

Lemma digit_plain (c : char) : is_digit c = true -> plain_char c.
Proof.
  unfold is_digit, plain_char. intros H. apply andb_prop in H.
  destruct H as [H1 H2]. apply Z.leb_le in H1, H2. lia.
Qed.

Lemma span_digits_split (s : pystr) :
  forall a b, span_digits s = (a, b) -> s = a ++ b /\ Forall plain_char a.
Proof.
  induction s as [|c t IH]; intros a b; simpl.
  - intros H; inversion H; subst. split; [reflexivity|constructor].
  - destruct (is_digit c) eqn:D.
    + destruct (span_digits t) as [a' b'] eqn:E.
      intros H; inversion H; subst.
      destruct (IH _ _ eq_refl) as [-> Ha].
      split; [reflexivity|]. constructor; [apply digit_plain, D|exact Ha].
    + intros H; inversion H; subst. split; [reflexivity|constructor].
Qed.

Lemma take_fraction_split (s fp r : pystr) :
  take_fraction s = (fp, r) -> exists pre, s = pre ++ r /\ Forall plain_char pre.
Proof.
  unfold take_fraction. destruct s as [|c t].
  - intros H; inversion H; subst. exists []. split; [reflexivity|constructor].
  - destruct (c =? 46)%Z eqn:A.
    + intros H. apply span_digits_split in H. destruct H as [-> Hf].
      apply Z.eqb_eq in A; subst.
      exists (46%Z :: fp). split; [reflexivity|].
      constructor; [split; discriminate|exact Hf].
    + intros H; inversion H; subst.
      exists []. split; [reflexivity|constructor].
Qed.

Lemma take_exponent_split (s r : pystr) (e : Z) :
  take_exponent s = (e, r) -> exists pre, s = pre ++ r /\ Forall plain_char pre.
Proof.
  unfold take_exponent. destruct s as [|c t].
  - intros H; inversion H; subst. exists []. split; [reflexivity|constructor].
  - destruct ((c =? 101)%Z || (c =? 69)%Z) eqn:A.
    + destruct (take_sign t) as [eneg t1] eqn:E1.
      destruct (span_digits t1) as [ed t2] eqn:E2.
      apply take_sign_split in E1. destruct E1 as (p1 & -> & Hp1).
      apply span_digits_split in E2. destruct E2 as [-> Hed].
      destruct ed as [|d ed'].
      * intros H; inversion H; subst.
        exists []. split; [reflexivity|constructor].
      * intros H; inversion H; subst.
        exists (c :: p1 ++ d :: ed'). split.
        -- simpl. rewrite <- app_assoc. reflexivity.
        -- constructor.
           ++ apply orb_prop in A.
              destruct A as [A|A]; apply Z.eqb_eq in A; subst;
                split; discriminate.
           ++ apply Forall_app; split; assumption.
    + intros H; inversion H; subst.
      exists []. split; [reflexivity|constructor].
Qed.

Lemma strtod_split (s r : pystr) (v : float) :
  strtod s = Some (v, r) -> exists pre, s = pre ++ r /\ Forall plain_char pre.
Proof.
  unfold strtod.
  destruct (take_sign s) as [neg s1] eqn:E1.
  destruct (span_digits s1) as [ip s2] eqn:E2.
  destruct (take_fraction s2) as [fp s3] eqn:E3.
  destruct (ip ++ fp) as [|d ds]; [discriminate|].
  destruct ((MAX_DIGITS <? len (lstrip (py "0") (d :: ds)))%Z
            || (MAX_DIGITS <? len fp)%Z); [discriminate|].
  destruct (take_exponent s3) as [e s4] eqn:E4.
  intros H; inversion H; subst.
  apply take_sign_split in E1. destruct E1 as (p1 & -> & H1).
  apply span_digits_split in E2. destruct E2 as [-> H2].
  apply take_fraction_split in E3. destruct E3 as (p3 & -> & H3).
  apply take_exponent_split in E4. destruct E4 as (p4 & -> & H4).
  exists (p1 ++ ip ++ p3 ++ p4). split.
  - rewrite <- !app_assoc. reflexivity.
  - repeat (apply Forall_app; split); assumption.
Qed.

Lemma to_lower_plain (c d : char) :
  (to_lower c =? d)%Z = true -> (97 <= d)%Z -> plain_char c.
Proof.
  unfold to_lower, plain_char. intros H Hd. apply Z.eqb_eq in H.
  destruct ((65 <=? c)%Z && (c <=? 90)%Z) eqn:A.
  - apply andb_prop in A. destruct A as [A1 A2]. apply Z.leb_le in A1, A2. lia.
  - lia.
Qed.

Lemma case_insensitive_match_split (t : pystr) :
  Forall (fun d => 97 <= d)%Z t ->
  forall s r, case_insensitive_match s t = Some r ->
              exists pre, s = pre ++ r /\ Forall plain_char pre.
Proof.
  induction 1 as [|d t' Hd Ht IH]; intros s r.
  - destruct s; cbn [case_insensitive_match]; intros H; inversion H; subst;
      exists []; split; try reflexivity; constructor.
  - destruct s as [|c s']; cbn [case_insensitive_match]; [discriminate|].
    destruct (to_lower c =? d)%Z eqn:A; [|discriminate].
    intros H. destruct (IH _ _ H) as (pre & -> & Hp).
    exists (c :: pre). split; [reflexivity|].
    constructor; [eapply to_lower_plain; eassumption|exact Hp].
Qed.

Lemma letters_inf : Forall (fun d => 97 <= d)%Z (py "inf").
Proof. repeat constructor; vm_compute; discriminate. Qed.

Lemma letters_inity : Forall (fun d => 97 <= d)%Z (py "inity").
Proof. repeat constructor; vm_compute; discriminate. Qed.

Lemma letters_nan : Forall (fun d => 97 <= d)%Z (py "nan").
Proof. repeat constructor; vm_compute; discriminate. Qed.

Lemma parse_inf_or_nan_split (s r : pystr) (v : float) :
  parse_inf_or_nan s = Some (v, r) ->
  exists pre, s = pre ++ r /\ Forall plain_char pre.
Proof.
  unfold parse_inf_or_nan.
  destruct (take_sign s) as [neg s1] eqn:E1.
  apply take_sign_split in E1. destruct E1 as (p1 & -> & H1).
  destruct (case_insensitive_match s1 (py "inf")) as [s2|] eqn:E2.
  - apply (case_insensitive_match_split _ letters_inf) in E2.
    destruct E2 as (p2 & -> & H2).
    destruct (case_insensitive_match s2 (py "inity")) as [s3|] eqn:E3.
    + apply (case_insensitive_match_split _ letters_inity) in E3.
      destruct E3 as (p3 & -> & H3).
      intros H; inversion H; subst.
      exists (p1 ++ p2 ++ p3). split; [rewrite <- !app_assoc; reflexivity|].
      repeat (apply Forall_app; split); assumption.
    + intros H; inversion H; subst.
      exists (p1 ++ p2). split; [rewrite <- !app_assoc; reflexivity|].
      apply Forall_app; split; assumption.
  - destruct (case_insensitive_match s1 (py "nan")) as [s2|] eqn:E3;
      [|discriminate].
    apply (case_insensitive_match_split _ letters_nan) in E3.
    destruct E3 as (p2 & -> & H2).
    intros H; inversion H; subst.
    exists (p1 ++ p2). split; [rewrite <- !app_assoc; reflexivity|].
    apply Forall_app; split; assumption.
Qed.

Lemma float_from_string_inner_plain (s : pystr) (v : float) :
  float_from_string_inner s = Ok v -> Forall plain_char s.
Proof.
  unfold float_from_string_inner.
  destruct (strtod s) as [[w r]|] eqn:E.
  - destruct r; [|discriminate]. intros _.
    apply strtod_split in E. destruct E as (pre & -> & H).
    rewrite app_nil_r. exact H.
  - destruct (parse_inf_or_nan s) as [[w r]|] eqn:E'; [|discriminate].
    destruct r; [|discriminate]. intros _.
    apply parse_inf_or_nan_split in E'. destruct E' as (pre & -> & H).
    rewrite app_nil_r. exact H.
Qed.

(** A text that [float] accepts has no comma. *)
Lemma pyfloat_no_comma (s : pystr) (v : float) :
  pyfloat s = Ok v -> ~ In 44%Z s.
Proof.
  unfold pyfloat. intros H Hin.
  destruct (transform_comma s Hin) as (c & Hc & Hb).
  assert (Hsp : char_in c c_spaces = false).
  { destruct Hb as [-> | ->]; reflexivity. }
  apply (lstrip_keeps c_spaces _ c Hsp) in Hc.
  apply (rstrip_keeps c_spaces _ c Hsp) in Hc.
  set (t := rstrip c_spaces (lstrip c_spaces (transform_decimal_and_space s)))
    in *.
  assert (G : exists u, In c u /\ Forall plain_char u).
  { destruct (char_in 95 t).
    - destruct (remove_underscores 0 t) as [u|e] eqn:E; simpl in H;
        [|discriminate].
      exists u. split; [|eapply float_from_string_inner_plain; eassumption].
      eapply remove_underscores_keeps; [|eassumption|exact Hc].
      destruct Hb as [-> | ->]; discriminate.
    - exists t. split; [exact Hc|].
      eapply float_from_string_inner_plain; eassumption. }
  destruct G as (u & Hu & Hg).
  rewrite Forall_forall in Hg. destruct (Hg c Hu) as [G1 G2].
  destruct Hb; contradiction.
Qed.

Lemma replace_char_absent (old new : char) (s : pystr) :
  ~ In old s -> replace_char old new s = s.
Proof.
  unfold replace_char. induction s as [|c t IH]; simpl; [reflexivity|].
  intros H. destruct (c =? old)%Z eqn:A.
  - apply Z.eqb_eq in A. exfalso. apply H. left; assumption.
  - rewrite IH; [reflexivity|]. intros Hin. apply H. right; assumption.
Qed.

(** On a text that is a number, [percent] reads the number itself. *)
Lemma pyfloat_replace_comma (s : pystr) (v : float) :
  pyfloat s = Ok v -> pyfloat (replace_char 44 46 s) = Ok v.
Proof.
  intros H. rewrite replace_char_absent; [exact H|].
  eapply pyfloat_no_comma; eassumption.
Qed.

(** ** Percent *)

Lemma state_200_run :
  run [EDigit D2; EDigit D0; EDigit D0] initial = Ok state_200.
Proof. vm_compute. reflexivity. Qed.

Lemma state_100_plus_50_run :
  run [EDigit D1; EDigit D0; EDigit D0; EOperator Add; EDigit D5; EDigit D0]
    initial = Ok state_100_plus_50.
Proof. vm_compute. reflexivity. Qed.

(** C7. [percent] parses the current input; with no operator pending the new
    current input is the formatted [current / 100], with one pending it is
    the formatted [accumulator * (current / 100)]; the operator, the
    accumulator, [awaiting_operand] and the remembered operator and operand
    are never changed; 2, 0, 0, % shows 2, and 1, 0, 0, +, 5, 0, % makes the
    current input 50, after which = gives 150. *)
Theorem percent_of_current :
  (forall (st : State) (cur : float),
      pyfloat (current st) = Ok cur ->
      exists q st',
        float_truediv cur (float_of_Z 100) = Ok q /\
        percent st = Ok st' /\
        current st' =
        _format_number
          (match operator st with
           | None => q
           | Some _ => float_mul (acc st) q
           end)) /\
  (forall st : State,
      exists st',
        percent st = Ok st' /\
        operator st' = operator st /\ acc st' = acc st /\
        awaiting_operand st' = awaiting_operand st /\
        last_operator st' = last_operator st /\
        last_operand st' = last_operand st) /\
  (exists s1,
      run [EDigit D2; EDigit D0; EDigit D0; EPercent] initial = Ok s1 /\
      current s1 = py "2" /\ display_var s1 = py "2") /\
  (exists s1 s2,
      run [EDigit D1; EDigit D0; EDigit D0; EOperator Add; EDigit D5;
           EDigit D0; EPercent] initial = Ok s1 /\
      current s1 = py "50" /\
      handle EEquals s1 = Ok s2 /\
      current s2 = py "150" /\ display_var s2 = py "150").
Proof.
  split; [|split; [|split]].
  - intros st cur H.
    apply pyfloat_replace_comma in H.
    pose proof (percent_result st) as E. rewrite H in E.
    destruct E as (sh & lb & E).
    exists (SFdiv prec emax cur (float_of_Z 100)). eexists.
    split; [apply div_hundred_ok|]. split; [exact E|].
    unfold percent_value. simpl. destruct (operator st); reflexivity.
  - intros st. pose proof (percent_result st) as E.
    destruct (pyfloat (replace_char 44 46 (current st))) as [cur|e].
    + destruct E as (sh & lb & E). eexists. split; [exact E|].
      simpl. repeat (split; [reflexivity|]). reflexivity.
    + exists st. split; [exact E|].
      repeat (split; [reflexivity|]). reflexivity.
  - eexists. split; [vm_compute; reflexivity|].
    split; vm_compute; reflexivity.
  - eexists; eexists. split; [vm_compute; reflexivity|].
    split; [vm_compute; reflexivity|].
    split; [vm_compute; reflexivity|].
    split; vm_compute; reflexivity.
Qed.

Lemma percent_of_current_witness :
  (pyfloat (current state_200) = Ok (float_of_Z 200) /\
   exists q st',
     float_truediv (float_of_Z 200) (float_of_Z 100) = Ok q /\
     percent state_200 = Ok st' /\
     current st' =
     _format_number
       (match operator state_200 with
        | None => q
        | Some _ => float_mul (acc state_200) q
        end)) /\
  (pyfloat (current state_100_plus_50) = Ok (float_of_Z 50) /\
   exists q st',
     float_truediv (float_of_Z 50) (float_of_Z 100) = Ok q /\
     percent state_100_plus_50 = Ok st' /\
     current st' =
     _format_number
       (match operator state_100_plus_50 with
        | None => q
        | Some _ => float_mul (acc state_100_plus_50) q
        end)).
Proof.
  split.
  - split; [vm_compute; reflexivity|].
    apply (proj1 percent_of_current state_200 (float_of_Z 200)).
    vm_compute; reflexivity.
  - split; [vm_compute; reflexivity|].
    apply (proj1 percent_of_current state_100_plus_50 (float_of_Z 50)).
    vm_compute; reflexivity.
Defined.

(** ** The bounded searches of the decimal rendering always finish *)

Lemma digits_acc_value (fuel : nat) :
  forall n acc,
    (0 <= n < 10 ^ Z.of_nat fuel)%Z ->
    fold_left (fun a c => 10 * a + (c - 48))%Z (digits_acc fuel n acc) 0%Z
    = fold_left (fun a c => 10 * a + (c - 48))%Z acc n.
Proof.
  induction fuel as [|f IH]; intros n acc Hn.
  - simpl in *. assert (n = 0%Z) by lia. subst. reflexivity.
  - cbn [digits_acc].
    pose proof (Z.mod_pos_bound n 10 ltac:(lia)) as Hm.
    pose proof (Z.div_mod n 10 ltac:(lia)) as Hd.
    destruct (n <? 10)%Z eqn:L.
    + apply Z.ltb_lt in L. cbn [fold_left]. unfold digit_char.
      rewrite Z.mod_small by lia. f_equal. lia.
    + apply Z.ltb_ge in L. rewrite IH.
      * cbn [fold_left]. unfold digit_char. f_equal. lia.
      * rewrite Nat2Z.inj_succ, Z.pow_succ_r in Hn by lia.
        split; [apply Z.div_pos; lia|].
        apply Z.div_lt_upper_bound; lia.
Qed.

Lemma log2_fuel (n : Z) :
  (0 <= n -> n < 10 ^ Z.of_nat (S (Z.to_nat (Z.log2 n))))%Z.
Proof.
  intros Hn.
  rewrite Nat2Z.inj_succ, Z2Nat.id by apply Z.log2_nonneg.
  destruct (Z.eq_dec n 0) as [->|Hz].
  - vm_compute. reflexivity.
  - pose proof (Z.log2_spec n ltac:(lia)) as [_ H].
    eapply Z.lt_le_trans; [exact H|].
    apply Z.pow_le_mono_l. pose proof (Z.log2_nonneg n). lia.
Qed.

(** [decimal] writes the whole number: reading its digits back gives [n]. *)
Lemma decimal_value (n : Z) : (0 <= n)%Z -> digits_value (decimal n) = n.
Proof.
  intros Hn. unfold digits_value, decimal.
  rewrite digits_acc_value; [reflexivity|].
  split; [exact Hn | apply log2_fuel, Hn].
Qed.

Lemma search_down_spec (fuel : nat) (r : ratio) :
  forall x,
    ge_pow10 r (x - Z.of_nat fuel) = true ->
    ge_pow10 r (x + 1) = false ->
    ge_pow10 r (search_down fuel r x) = true /\
    ge_pow10 r (search_down fuel r x + 1) = false.
Proof.
  induction fuel as [|f IH]; intros x Hlo Hhi.
  - simpl in *. rewrite Z.sub_0_r in Hlo. auto.
  - cbn [search_down]. destruct (ge_pow10 r x) eqn:G; [auto|].
    apply IH.
    + rewrite Nat2Z.inj_succ in Hlo.
      replace (x - 1 - Z.of_nat f)%Z with (x - Z.succ (Z.of_nat f))%Z by lia.
      exact Hlo.
    + replace (x - 1 + 1)%Z with x by lia. exact G.
Qed.

(** Below one the search of [floor_log10] stops at the decimal exponent:
    [10^x <= n/d < 10^(x+1)]. *)
Lemma floor_log10_below_one (n d : Z) :
  (0 < n < d)%Z ->
  ge_pow10 (n, d) (floor_log10 (n, d)) = true /\
  ge_pow10 (n, d) (floor_log10 (n, d) + 1) = false.
Proof.
  intros [Hn Hd]. unfold floor_log10.
  destruct (d <=? n)%Z eqn:L; [apply Z.leb_le in L; lia|].
  replace (Z.of_nat 0) with 0%Z by reflexivity.
  apply search_down_spec.
  - rewrite Nat2Z.inj_succ, Z2Nat.id by apply Z.log2_nonneg.
    unfold ge_pow10, scale10.
    pose proof (Z.log2_nonneg d) as Hl.
    destruct (0 <=? - (-1 - Z.succ (Z.log2 d)))%Z eqn:S;
      [|apply Z.leb_gt in S; lia].
    apply Z.leb_le.
    replace (- (-1 - Z.succ (Z.log2 d)))%Z with (Z.succ (Z.succ (Z.log2 d)))
      by lia.
    pose proof (Z.log2_spec d ltac:(lia)) as [_ H].
    assert (P : (2 ^ Z.succ (Z.log2 d) <= 10 ^ Z.succ (Z.succ (Z.log2 d)))%Z).
    { eapply Z.le_trans;
        [apply (Z.pow_le_mono_l 2 10 (Z.succ (Z.log2 d))); lia|].
      apply Z.pow_le_mono_r; lia. }
    nia.
  - unfold ge_pow10, scale10. simpl. apply Z.leb_gt. lia.
Qed.

(** * Further properties of the handlers *)

(** ** The states the handlers return, with the window *)

Lemma update_display_refresh (st : State) : _update_display st = Ok (refresh st).
Proof. apply update_display_ok. Qed.

Lemma set_current_refresh (text : pystr) (st : State) :
  _set_current text st =
  Ok (refresh (with_has_input (negb (str_eqb text (py "0")))
                 (with_current text st))).
Proof. unfold _set_current. apply update_display_refresh. Qed.

Lemma str_eqb_eq (s t : pystr) : str_eqb s t = true <-> s = t.
Proof.
  revert t; induction s as [|c s IH]; intros [|d t]; simpl;
    try (split; [discriminate|discriminate]); [split; reflexivity|].
  rewrite andb_true_iff, Z.eqb_eq, IH.
  split; [intros [-> ->]; reflexivity | intros H; inversion H; auto].
Qed.

Lemma str_eqb_refl (s : pystr) : str_eqb s s = true.
Proof. apply str_eqb_eq. reflexivity. Qed.

Lemma op_str_symbol (o : op) : In (op_str o) operator_symbols.
Proof. destruct o; simpl; auto. Qed.

(** [begin_entry] changes nothing in a state that is neither just evaluated
    nor awaiting an operand. *)
Lemma begin_entry_idle (st : State) :
  just_evaluated st = false -> awaiting_operand st = false ->
  begin_entry st = st.
Proof.
  destruct st as [a c o lo ld je aw hi dv ba]; simpl.
  intros -> ->. reflexivity.
Qed.

Lemma begin_entry_consistent (st : State) :
  consistent st -> consistent (begin_entry st).
Proof.
  intros [H1 H2 H3 H4 H5]. unfold begin_entry.
  destruct st as [a c o lo ld je aw hi dv ba]; simpl in *.
  destruct (je && is_none o); simpl.
  - constructor; simpl; try discriminate; auto.
  - destruct aw; constructor; simpl; try discriminate; auto.
Qed.

Lemma set_current_consistent (text : pystr) (st st' : State) :
  consistent st -> _set_current text st = Ok st' -> consistent st'.
Proof.
  intros [H1 H2 H3 H4 H5] E. rewrite set_current_refresh in E.
  inversion E; subst; clear E.
  destruct st as [a c o lo ld je aw hi dv ba]; simpl in *.
  constructor; simpl; auto.
Qed.

(** Every handler keeps the state consistent. *)
Lemma handle_consistent (ev : event) (st st' : State) :
  consistent st -> handle ev st = Ok st' -> consistent st'.
Proof.
  intros C H. destruct ev; simpl in H.
  - unfold _append_digit in H.
    destruct (str_eqb (current (begin_entry st)) (py "-0")
              || str_eqb (current (begin_entry st)) (py "0"));
      (eapply set_current_consistent; [|exact H]);
      apply begin_entry_consistent, C.
  - unfold input_dot in H.
    destruct (negb (char_in 46 (current (begin_entry st)))).
    + eapply set_current_consistent; [|exact H].
      apply begin_entry_consistent, C.
    + inversion H; subst. apply begin_entry_consistent, C.
  - unfold toggle_sign in H.
    destruct (startswith (current st) (py "-")).
    + eapply set_current_consistent; eassumption.
    + destruct (negb (str_eqb (current st) (py "0"))).
      * eapply set_current_consistent; eassumption.
      * inversion H; subst; exact C.
  - pose proof (percent_result st) as E.
    destruct (pyfloat (replace_char 44 46 (current st))) as [cur|e].
    + destruct E as (sh & lb & E). rewrite E in H; inversion H; subst.
      destruct C as [H1 H2 H3 H4 H5]. constructor; simpl; auto.
    + rewrite E in H; inversion H; subst; exact C.
  - destruct (set_operator_result (op_str o) st) as (v & sh & lb & _ & E).
    rewrite E in H; inversion H; subst.
    destruct C as [H1 H2 H3 H4 H5]. constructor; simpl; auto.
    + discriminate.
    + intros o' Ho. inversion Ho; subst. apply op_str_symbol.
    + discriminate.
  - destruct (equals_result st) as (r & sh & lb & _ & E).
    rewrite E in H; inversion H; subst.
    destruct C as [H1 H2 H3 H4 H5]. constructor; simpl; auto.
    + discriminate.
    + destruct (operator st) as [p|] eqn:Ho; [|exact H4].
      intros o' Ho'. inversion Ho'; subst. apply H3. reflexivity.
    + destruct (operator st) as [p|] eqn:Ho; [|exact H5].
      right. eauto.
  - destruct (has_input st || just_evaluated st) eqn:B.
    + destruct (clear_entry_result st B) as (sh & lb & E).
      rewrite E in H; inversion H; subst.
      destruct C as [H1 H2 H3 H4 H5]. constructor; simpl; auto. discriminate.
    + destruct (clear_all_result st B) as (sh & lb & E).
      rewrite E in H; inversion H; subst.
      constructor; simpl; auto; discriminate.
  - destruct (backspace_result st) as [[_ E]|[_ (sh & lb & E)]];
      rewrite E in H; inversion H; subst; [exact C|].
    destruct C as [H1 H2 H3 H4 H5]. constructor; simpl; auto. discriminate.
Qed.

Lemma initial_consistent : consistent initial.
Proof.
  constructor; simpl; try discriminate; auto.
Qed.

Lemma reachable_consistent (st : State) : reachable st -> consistent st.
Proof.
  induction 1 as [|st ev st' Hr IH H]; [apply initial_consistent|].
  eapply handle_consistent; eassumption.
Qed.

(** ** The window follows the fields *)

Lemma refresh_settled (st : State) :
  in_sync (refresh st) /\ label_ok (refresh st).
Proof.
  destruct st as [a c o lo ld je aw hi dv ba].
  split; [reflexivity | left; reflexivity].
Qed.

Lemma begin_entry_ignored (st : State) :
  consistent st ->
  char_in 46 (current (begin_entry st)) = true -> begin_entry st = st.
Proof.
  intros [_ H2 _ _ _] D. unfold begin_entry in *.
  destruct st as [a c o lo ld je aw hi dv ba]; simpl in *.
  destruct je; simpl in *.
  - rewrite (H2 eq_refl) in D. simpl in D. discriminate D.
  - destruct aw; simpl in *; [discriminate D | reflexivity].
Qed.

Lemma set_current_shape (text : pystr) (st : State) :
  exists X, _set_current text st = Ok (refresh X).
Proof. rewrite set_current_refresh. eauto. Qed.

Lemma append_digit_shape (d : pystr) (st : State) :
  exists X, _append_digit d st = Ok (refresh X).
Proof.
  unfold _append_digit.
  destruct (str_eqb (current (begin_entry st)) (py "-0")
            || str_eqb (current (begin_entry st)) (py "0"));
    apply set_current_shape.
Qed.

Lemma input_dot_shape (st : State) :
  consistent st ->
  input_dot st = Ok st \/ exists X, input_dot st = Ok (refresh X).
Proof.
  intros C. unfold input_dot.
  destruct (char_in 46 (current (begin_entry st))) eqn:D; simpl.
  - left. rewrite (begin_entry_ignored st C D). reflexivity.
  - right. apply set_current_shape.
Qed.

Lemma toggle_sign_shape (st : State) :
  toggle_sign st = Ok st \/ exists X, toggle_sign st = Ok (refresh X).
Proof.
  unfold toggle_sign.
  destruct (startswith (current st) (py "-")); [right; apply set_current_shape|].
  destruct (negb (str_eqb (current st) (py "0")));
    [right; apply set_current_shape | left; reflexivity].
Qed.

Lemma percent_shape (st : State) :
  percent st = Ok st \/ exists X, percent st = Ok (refresh X).
Proof.
  pose proof (percent_result st) as E. unfold percent in *.
  destruct (pyfloat_cases (replace_char 44 46 (current st))) as [[cur P]|P];
    rewrite P in *; cbn [try_except bind exn_eqb] in *; [right|left; exact E].
  rewrite div_hundred_ok.
  destruct (operator st); cbn [bind]; apply set_current_shape.
Qed.

Lemma set_operator_shape (o : pystr) (st : State) :
  exists X, set_operator o st = Ok (refresh X).
Proof.
  unfold set_operator. rewrite current_value_eq. cbn [bind].
  destruct (operator (if just_evaluated st
                      then with_just_evaluated false st else st)) as [p|].
  - match goal with
    | |- context [_apply_operator ?a ?b ?p] =>
        destruct (apply_operator_ok a b p) as [v Hv]; rewrite Hv
    end.
    cbn [bind]. rewrite update_display_refresh. eauto.
  - cbn [bind]. rewrite update_display_refresh. eauto.
Qed.

Lemma equals_shape (st : State) :
  exists X,
    equals st = Ok (with_just_evaluated true (refresh X)) /\
    just_evaluated X = just_evaluated st /\
    has_input X = negb (str_eqb (current X) (py "0")).
Proof.
  unfold equals. rewrite current_value_eq. cbn [bind].
  assert (K : forall r s,
             just_evaluated s = just_evaluated st ->
             exists X,
               (st0 <- _set_current (_format_number r) s ;;
                Ok (with_just_evaluated true st0))
               = Ok (with_just_evaluated true (refresh X)) /\
               just_evaluated X = just_evaluated st /\
               has_input X = negb (str_eqb (current X) (py "0"))).
  { intros r s Hs. rewrite set_current_refresh. cbn [bind].
    eexists. split; [reflexivity|]. split; [exact Hs | reflexivity]. }
  destruct (operator st) as [p|].
  - destruct (apply_operator_ok (acc st) (value_or_zero (current st)) p)
      as [r Hr].
    rewrite Hr. cbn [bind fst snd]. apply K. reflexivity.
  - destruct (last_operator st) as [lop|];
      [destruct (last_operand st) as [lod|]|].
    + destruct (apply_operator_ok (value_or_zero (current st)) lod lop)
        as [r Hr].
      rewrite Hr. cbn [bind fst snd]. apply K. reflexivity.
    + cbn [bind fst snd]. apply K. reflexivity.
    + cbn [bind fst snd]. apply K. reflexivity.
Qed.

Lemma clear_shape (st : State) :
  exists X, clear_entry_or_all st = Ok (refresh X).
Proof.
  unfold clear_entry_or_all.
  destruct (has_input st || just_evaluated st).
  - rewrite set_current_refresh. cbn [bind].
    rewrite update_display_refresh. eauto.
  - rewrite update_display_refresh. eauto.
Qed.

Lemma backspace_shape (st : State) :
  backspace st = Ok st \/ exists X, backspace st = Ok (refresh X).
Proof.
  unfold backspace.
  destruct (just_evaluated st); [left; reflexivity|right].
  destruct ((len (current st) <=? 1)%Z
            || ((len (current st) =? 2)%Z && startswith (current st) (py "-")));
    apply set_current_shape.
Qed.

(** What a handler returns: the state it was given, a state fresh from
    [_update_display], or, for [equals], such a state with [just_evaluated]
    set afterwards. *)
Lemma handle_shape (ev : event) (st st' : State) :
  consistent st -> handle ev st = Ok st' ->
  st' = st \/
  (exists X, st' = refresh X) \/
  (exists X, st' = with_just_evaluated true (refresh X) /\
             just_evaluated X = just_evaluated st /\
             has_input X = negb (str_eqb (current X) (py "0"))).
Proof.
  intros C H. destruct ev; cbn [handle] in H.
  - destruct (append_digit_shape (digit_str d) st) as [X E].
    rewrite E in H. inversion H. eauto.
  - destruct (input_dot_shape st C) as [E|[X E]];
      rewrite E in H; inversion H; eauto.
  - destruct (toggle_sign_shape st) as [E|[X E]];
      rewrite E in H; inversion H; eauto.
  - destruct (percent_shape st) as [E|[X E]];
      rewrite E in H; inversion H; eauto.
  - destruct (set_operator_shape (op_str o) st) as [X E].
    rewrite E in H. inversion H. eauto.
  - destruct (equals_shape st) as (X & E & H1 & H2).
    rewrite E in H. inversion H. right; right. eauto.
  - destruct (clear_shape st) as [X E].
    rewrite E in H. inversion H. eauto.
  - destruct (backspace_shape st) as [E|[X E]];
      rewrite E in H; inversion H; eauto.
Qed.

Lemma evaluated_settled (X : State) :
  has_input X = negb (str_eqb (current X) (py "0")) ->
  in_sync (with_just_evaluated true (refresh X)) /\
  label_ok (with_just_evaluated true (refresh X)).
Proof.
  destruct X as [a c o lo ld je aw hi dv ba]; simpl. intros ->.
  split; [reflexivity|]. unfold label_ok, label_of; simpl.
  destruct (str_eqb c (py "0")) eqn:Z; simpl.
  - apply str_eqb_eq in Z. subst c.
    destruct je; [left; reflexivity | right; auto].
  - left. reflexivity.
Qed.

Lemma handle_settled (ev : event) (st st' : State) :
  consistent st -> in_sync st /\ label_ok st ->
  handle ev st = Ok st' -> in_sync st' /\ label_ok st'.
Proof.
  intros C S H.
  destruct (handle_shape ev st st' C H) as [->|[[X ->]|[X (-> & _ & Hh)]]].
  - exact S.
  - apply refresh_settled.
  - apply evaluated_settled, Hh.
Qed.

Lemma reachable_settled (st : State) :
  reachable st -> in_sync st /\ label_ok st.
Proof.
  induction 1 as [|st ev st' Hr IH H].
  - split; [reflexivity | left; reflexivity].
  - eapply handle_settled; [apply reachable_consistent| |]; eassumption.
Qed.

(** X1. No handler leaves the display behind: in every reachable state a
    further [_update_display] would write the display text that is already
    there. *)
Theorem display_follows_fields :
  forall st : State,
    reachable st ->
    exists st', _update_display st = Ok st' /\ display_var st' = display_var st.
Proof.
  intros st Hr. destruct (reachable_settled st Hr) as [S _].
  exists (refresh st). split; [apply update_display_refresh|].
  unfold in_sync in S. rewrite S. destruct st; reflexivity.
Qed.

Lemma display_follows_fields_witness :
  reachable state_100_plus_50 /\
  exists st',
    _update_display state_100_plus_50 = Ok st' /\
    display_var st' = display_var state_100_plus_50.
Proof.
  split;
    [exact (reachable_run _ _ _ reachable_initial state_100_plus_50_run)|].
  apply (display_follows_fields state_100_plus_50).
  exact (reachable_run _ _ _ reachable_initial state_100_plus_50_run).
Defined.

(** X2. The label of the clear button is "C" exactly when [has_input] or
    [just_evaluated] holds, with one exception that the code has: [equals]
    sets [just_evaluated] after the window was refreshed, so when its result
    is "0" and nothing was evaluated before, the label stays "AC" (as after
    a bare =) until a handler refreshes the window. *)
Theorem clear_label_follows_flags :
  (forall st : State,
      reachable st ->
      btn_ac st = (if has_input st || just_evaluated st then py "C" else py "AC")
      \/ (just_evaluated st = true /\ current st = py "0" /\
          btn_ac st = py "AC")) /\
  (exists st,
      run [EEquals] initial = Ok st /\
      just_evaluated st = true /\ current st = py "0" /\ btn_ac st = py "AC").
Proof.
  split.
  - intros st Hr. destruct (reachable_settled st Hr) as [_ L]. exact L.
  - eexists. split; [vm_compute; reflexivity|].
    split; [reflexivity|]. split; vm_compute; reflexivity.
Qed.

Lemma clear_label_follows_flags_witness :
  reachable state_12 /\
  (btn_ac state_12
   = (if has_input state_12 || just_evaluated state_12 then py "C" else py "AC")
   \/ (just_evaluated state_12 = true /\ current state_12 = py "0" /\
       btn_ac state_12 = py "AC")).
Proof.
  split; [exact (reachable_run _ _ _ reachable_initial state_12_run)|].
  apply (proj1 clear_label_follows_flags state_12).
  exact (reachable_run _ _ _ reachable_initial state_12_run).
Defined.

(** X3. In every reachable state [has_input] says whether the current input
    differs from "0". *)
Theorem has_input_tracks_current :
  forall st : State,
    reachable st -> has_input st = negb (str_eqb (current st) (py "0")).
Proof.
  intros st Hr. apply (has_input_current st), reachable_consistent, Hr.
Qed.

Lemma has_input_tracks_current_witness :
  reachable state_2_plus_3 /\
  has_input state_2_plus_3 = negb (str_eqb (current state_2_plus_3) (py "0")).
Proof.
  split; [exact (reachable_run _ _ _ reachable_initial state_2_plus_3_run)|].
  apply (has_input_tracks_current state_2_plus_3).
  exact (reachable_run _ _ _ reachable_initial state_2_plus_3_run).
Defined.

(** X4. In every reachable state the pending operator and the remembered one
    are among "+", "-", "*", "/", the four symbols [_apply_operator] tests
    for. *)
Theorem operators_are_symbols :
  forall st : State,
    reachable st ->
    (forall o, operator st = Some o -> In o operator_symbols) /\
    (forall o, last_operator st = Some o -> In o operator_symbols).
Proof.
  intros st Hr. pose proof (reachable_consistent st Hr) as C.
  split; [apply (operator_symbol st C) | apply (last_operator_symbol st C)].
Qed.

Lemma operators_are_symbols_witness :
  reachable state_5_plus_3_eq /\
  (forall o, operator state_5_plus_3_eq = Some o -> In o operator_symbols) /\
  (forall o, last_operator state_5_plus_3_eq = Some o -> In o operator_symbols).
Proof.
  split; [exact (reachable_run _ _ _ reachable_initial state_5_plus_3_eq_run)|].
  apply (operators_are_symbols state_5_plus_3_eq).
  exact (reachable_run _ _ _ reachable_initial state_5_plus_3_eq_run).
Defined.

(** X5. In every reachable state, [just_evaluated] implies that no operator
    is pending (so a digit or point after a result always starts from
    [reset_all]), and the remembered operator and operand are both set or
    both absent. *)
Theorem evaluated_and_remembered :
  forall st : State,
    reachable st ->
    (just_evaluated st = true -> operator st = None) /\
    ((last_operator st = None /\ last_operand st = None) \/
     (exists o v, last_operator st = Some o /\ last_operand st = Some v)).
Proof.
  intros st Hr. pose proof (reachable_consistent st Hr) as C.
  split; [apply (evaluated_no_operator st C) | apply (last_pair st C)].
Qed.

Lemma evaluated_and_remembered_witness :
  reachable state_5_plus_3_eq /\
  (just_evaluated state_5_plus_3_eq = true -> operator state_5_plus_3_eq = None)
  /\
  ((last_operator state_5_plus_3_eq = None /\
    last_operand state_5_plus_3_eq = None) \/
   (exists o v, last_operator state_5_plus_3_eq = Some o /\
                last_operand state_5_plus_3_eq = Some v)).
Proof.
  split; [exact (reachable_run _ _ _ reachable_initial state_5_plus_3_eq_run)|].
  apply (evaluated_and_remembered state_5_plus_3_eq).
  exact (reachable_run _ _ _ reachable_initial state_5_plus_3_eq_run).
Defined.

(** ** Clearing *)

Lemma clear_entry_exact (st : State) :
  has_input st || just_evaluated st = true ->
  clear_entry_or_all st =
  Ok (refresh (mkState (acc st) (py "0") (operator st) (last_operator st)
                 (last_operand st) false (awaiting_operand st) false
                 (display_var st) (btn_ac st))).
Proof.
  intros H. unfold clear_entry_or_all. rewrite H.
  rewrite set_current_refresh. cbn [bind]. rewrite update_display_refresh.
  destruct st; reflexivity.
Qed.

Lemma clear_all_exact (st : State) :
  has_input st || just_evaluated st = false ->
  clear_entry_or_all st =
  Ok (refresh (mkState zero (current st) None None None false false
                 (negb (str_eqb (current st) (py "0")))
                 (display_var st) (btn_ac st))).
Proof.
  intros H. unfold clear_entry_or_all. rewrite H.
  rewrite update_display_refresh. destruct st; reflexivity.
Qed.

Lemma refresh_rest (dv ba : pystr) :
  refresh (mkState zero (py "0") None None None false false false dv ba)
  = initial.
Proof. vm_compute. reflexivity. Qed.

(** X6. Two presses of the clear button bring every state, reachable or not,
    back to the initial one: whichever of entry-clear and all-clear the first
    press is, the second completes the reset, and the display shows "0" with
    the label "AC". *)
Theorem clear_twice_resets :
  forall st : State, run [EClear; EClear] st = Ok initial.
Proof.
  intros st. cbn [run handle].
  destruct (has_input st || just_evaluated st) eqn:B.
  - rewrite (clear_entry_exact st B). cbn [bind].
    rewrite clear_all_exact by (destruct st; reflexivity). cbn [bind].
    apply f_equal. destruct st; apply refresh_rest.
  - rewrite (clear_all_exact st B). cbn [bind].
    destruct (str_eqb (current st) (py "0")) eqn:Z.
    + rewrite clear_all_exact by (destruct st; reflexivity).
      cbn [bind]. apply f_equal. apply str_eqb_eq in Z.
      destruct st; simpl in *; subst. apply refresh_rest.
    + rewrite clear_entry_exact by (destruct st; reflexivity).
      cbn [bind]. apply f_equal. destruct st; apply refresh_rest.
Qed.

(** ** Starting a number *)

Lemma begin_entry_after_result (st : State) :
  just_evaluated st = true -> operator st = None ->
  begin_entry st =
  mkState zero (py "0") None None None false false false
    (display_var st) (btn_ac st).
Proof.
  destruct st as [a c o lo ld je aw hi dv ba]; simpl.
  intros -> ->. reflexivity.
Qed.

(** [_set_current] does not read the window. *)
Lemma set_current_window (text : pystr) (st : State) (dv ba : pystr) :
  _set_current text (with_btn_ac ba (with_display_var dv st))
  = _set_current text st.
Proof. rewrite !set_current_refresh. destruct st; reflexivity. Qed.

Lemma rest_window (dv ba : pystr) :
  mkState zero (py "0") None None None false false false dv ba
  = with_btn_ac ba (with_display_var dv initial).
Proof. reflexivity. Qed.

(** X7. After a result ([just_evaluated] set, no operator pending) a digit
    or a point acts exactly as on a calculator that was just started:
    the accumulator, the remembered operation and the old text are gone. *)
Theorem entry_after_result_starts_afresh :
  forall st : State,
    just_evaluated st = true -> operator st = None ->
    (forall d, handle (EDigit d) st = handle (EDigit d) initial) /\
    handle EPoint st = handle EPoint initial.
Proof.
  intros st Hj Ho.
  pose proof (begin_entry_after_result st Hj Ho) as Hb.
  pose proof (begin_entry_idle initial eq_refl eq_refl) as Hi.
  split.
  - intros d. cbn [handle]. unfold _append_digit. rewrite Hb, Hi.
    rewrite rest_window.
    destruct (str_eqb (current initial) (py "-0")
              || str_eqb (current initial) (py "0")) eqn:E;
      destruct st as [a c o lo ld je aw hi dv ba]; cbn [current] in *;
      cbn [with_btn_ac with_display_var current initial] in *;
      try rewrite E.
    + apply (set_current_window _ initial dv ba).
    + apply (set_current_window _ initial dv ba).
  - cbn [handle]. unfold input_dot. rewrite Hb, Hi. rewrite rest_window.
    destruct st as [a c o lo ld je aw hi dv ba].
    cbn [with_btn_ac with_display_var current initial display_var btn_ac].
    apply (set_current_window _ initial dv ba).
Qed.

Lemma entry_after_result_starts_afresh_witness :
  just_evaluated state_5_plus_3_eq = true /\
  operator state_5_plus_3_eq = None /\
  (forall d, handle (EDigit d) state_5_plus_3_eq = handle (EDigit d) initial) /\
  handle EPoint state_5_plus_3_eq = handle EPoint initial.
Proof.
  split; [reflexivity|]. split; [reflexivity|].
  apply (entry_after_result_starts_afresh state_5_plus_3_eq); reflexivity.
Defined.

Lemma appended_zero (d : pystr) : appended (py "0") d = d.
Proof. reflexivity. Qed.

(** X8. After an operator (and no result in between), the first digit
    replaces the text on show and starts the second operand; the pending
    operator, the accumulator and the remembered pair are kept, and
    [awaiting_operand] is cleared. *)
Theorem digit_after_operator :
  forall (st : State) (d : digit),
    awaiting_operand st = true -> just_evaluated st = false ->
    exists st',
      handle (EDigit d) st = Ok st' /\
      current st' = digit_str d /\
      operator st' = operator st /\ acc st' = acc st /\
      last_operator st' = last_operator st /\
      last_operand st' = last_operand st /\
      awaiting_operand st' = false /\ just_evaluated st' = false.
Proof.
  intros st d Ha Hj. cbn [handle].
  destruct (append_digit_result (digit_str d) st) as (sh & lb & E).
  assert (Hb : begin_entry st =
               with_awaiting_operand false
                 (with_has_input false (with_current (py "0") st))).
  { destruct st as [a c o lo ld je aw hi dv ba]; simpl in *; subst.
    reflexivity. }
  rewrite Hb in E. eexists. split; [exact E|].
  cbn [current operator acc last_operator last_operand awaiting_operand
       just_evaluated with_awaiting_operand with_has_input with_current].
  rewrite appended_zero. repeat (split; [reflexivity|]). reflexivity.
Qed.

Lemma state_2_plus_run :
  run [EDigit D2; EOperator Add] initial = Ok state_2_plus.
Proof. vm_compute. reflexivity. Qed.

Lemma digit_after_operator_witness :
  awaiting_operand state_2_plus = true /\
  just_evaluated state_2_plus = false /\
  exists st',
    handle (EDigit D3) state_2_plus = Ok st' /\
    current st' = digit_str D3 /\
    operator st' = operator state_2_plus /\ acc st' = acc state_2_plus /\
    last_operator st' = last_operator state_2_plus /\
    last_operand st' = last_operand state_2_plus /\
    awaiting_operand st' = false /\ just_evaluated st' = false.
Proof.
  split; [reflexivity|]. split; [reflexivity|].
  apply (digit_after_operator state_2_plus D3); reflexivity.
Defined.

(** ** Operators *)

(** X9. Choosing an operator never touches the text typed so far nor
    [has_input]; it clears [just_evaluated], forgets the remembered operator
    and operand, and always leaves the chosen operator pending with
    [awaiting_operand] set. *)
Theorem set_operator_keeps_text :
  forall (st : State) (o : pystr),
    exists st',
      set_operator o st = Ok st' /\
      current st' = current st /\ has_input st' = has_input st /\
      just_evaluated st' = false /\
      last_operator st' = None /\ last_operand st' = None /\
      operator st' = Some o /\ awaiting_operand st' = true.
Proof.
  intros st o.
  destruct (set_operator_result o st) as (v & sh & lb & _ & E).
  eexists. split; [exact E|]. simpl.
  repeat (split; [reflexivity|]). reflexivity.
Qed.

(** X10. An operator pressed right after another one does not replace it:
    the first operator is applied to the accumulator and the number still on
    show (which the first press had copied into the accumulator), and only
    then the second is recorded.  So 2, +, *, 3, = gives (2 + 2) * 3. *)
Theorem operator_after_operator :
  (forall (st : State) (o1 o2 : pystr),
      exists s1 s2,
        set_operator o1 st = Ok s1 /\
        set_operator o2 s1 = Ok s2 /\
        _apply_operator (acc s1) (value_or_zero (current st)) o1
        = Ok (acc s2) /\
        current s2 = current st /\ operator s2 = Some o2) /\
  (exists st,
      run [EDigit D2; EOperator Add; EOperator Mul; EDigit D3; EEquals]
        initial = Ok st /\
      current st = py "12").
Proof.
  split.
  - intros st o1 o2.
    destruct (set_operator_result o1 st) as (v1 & sh1 & lb1 & _ & E1).
    eexists. 
    match type of E1 with
    | _ = Ok ?s1 =>
        destruct (set_operator_result o2 s1) as (v2 & sh2 & lb2 & H2 & E2)
    end.
    eexists. split; [exact E1|]. split; [exact E2|].
    simpl in *. split; [exact H2|]. split; reflexivity.
  - eexists. split; vm_compute; reflexivity.
Qed.

(** ** Editing the text *)

Lemma startswith_minus (s : pystr) :
  startswith s (py "-") = match s with c :: _ => (c =? 45)%Z | [] => false end.
Proof.
  destruct s as [|c t]; [reflexivity|].
  change (py "-") with [45%Z]. cbn [startswith].
  destruct t; apply andb_true_r.
Qed.

Lemma startswith_two_minus (c : char) (t : pystr) :
  startswith (c :: t) (py "--") = ((c =? 45)%Z && startswith t (py "-"))%bool.
Proof. reflexivity. Qed.

Lemma toggled_twice (s : pystr) :
  s <> py "-0" -> startswith s (py "--") = false ->
  toggled (toggled s) = s.
Proof.
  intros H0 H2. unfold toggled.
  destruct s as [|c t].
  - reflexivity.
  - rewrite (startswith_minus (c :: t)).
    destruct (c =? 45)%Z eqn:C.
    + apply Z.eqb_eq in C. subst c. cbn [drop_first tl].
      rewrite startswith_two_minus in H2.
      change (startswith t (py "-") = false) in H2. rewrite H2.
      destruct (str_eqb t (py "0")) eqn:Z; [|reflexivity].
      apply str_eqb_eq in Z. subst t. exfalso. apply H0. reflexivity.
    + destruct (negb (str_eqb (c :: t) (py "0"))) eqn:Z.
      * reflexivity.
      * rewrite (startswith_minus (c :: t)), C, Z. reflexivity.
Qed.

(** X11. Pressing +/- twice gives back the text, the flags and the
    accumulator, unless the text is "-0" or starts with two signs; for "-0"
    the first press removes the sign and the second, on "0", does nothing. *)
Theorem toggle_sign_twice :
  (forall st : State,
      current st <> py "-0" -> startswith (current st) (py "--") = false ->
      exists st',
        run [EToggleSign; EToggleSign] st = Ok st' /\
        current st' = current st /\
        acc st' = acc st /\ operator st' = operator st /\
        last_operator st' = last_operator st /\
        last_operand st' = last_operand st /\
        just_evaluated st' = just_evaluated st /\
        awaiting_operand st' = awaiting_operand st) /\
  toggled (toggled (py "-0")) = py "0".
Proof.
  split; [|reflexivity].
  intros st H0 H2. cbn [run handle].
  destruct (toggle_sign_result st) as (hi1 & sh1 & lb1 & E1).
  rewrite E1. cbn [bind].
  match goal with
  | |- context [toggle_sign ?s1] =>
      destruct (toggle_sign_result s1) as (hi2 & sh2 & lb2 & E2)
  end.
  rewrite E2. cbn [bind]. eexists. split; [reflexivity|].
  cbn [current acc operator last_operator last_operand just_evaluated
       awaiting_operand].
  rewrite (toggled_twice _ H0 H2).
  repeat (split; [reflexivity|]). reflexivity.
Qed.

Lemma toggle_sign_twice_witness :
  current state_12 <> py "-0" /\
  startswith (current state_12) (py "--") = false /\
  exists st',
    run [EToggleSign; EToggleSign] state_12 = Ok st' /\
    current st' = current state_12 /\
    acc st' = acc state_12 /\ operator st' = operator state_12 /\
    last_operator st' = last_operator state_12 /\
    last_operand st' = last_operand state_12 /\
    just_evaluated st' = just_evaluated state_12 /\
    awaiting_operand st' = awaiting_operand state_12.
Proof.
  split; [vm_compute; discriminate|]. split; [reflexivity|].
  apply (proj1 toggle_sign_twice state_12);
    [vm_compute; discriminate | reflexivity].
Defined.

Lemma digit_str_single (d : digit) :
  exists c, digit_str d = [c] /\ is_digit c = true.
Proof. destruct d; eexists; split; reflexivity. Qed.

Lemma len_app_one (s : pystr) (c : char) : len (s ++ [c]) = (len s + 1)%Z.
Proof. unfold len. rewrite length_app. simpl. lia. Qed.

Lemma erased_appended (s : pystr) (d : digit) :
  s <> [] -> s <> py "-" -> s <> py "-0" ->
  erased (appended s (digit_str d)) = s.
Proof.
  intros Hn Hm H0.
  destruct (digit_str_single d) as (c & -> & Hc).
  unfold appended.
  destruct (str_eqb s (py "-0")) eqn:A;
    [apply str_eqb_eq in A; contradiction|].
  destruct (str_eqb s (py "0")) eqn:B; cbn [orb].
  - apply str_eqb_eq in B. subst s. reflexivity.
  - unfold erased. rewrite len_app_one.
    assert (L : (1 <= len s)%Z).
    { unfold len. destruct s; [contradiction|]. cbn [List.length]. lia. }
    destruct (len s + 1 <=? 1)%Z eqn:L1; [apply Z.leb_le in L1; lia|].
    cbn [orb].
    assert (G : ((len s + 1 =? 2)%Z && startswith (s ++ [c]) (py "-")) = false).
    { destruct (len s + 1 =? 2)%Z eqn:L2; [|reflexivity].
      apply Z.eqb_eq in L2. cbn [andb].
      destruct s as [|x [|y t]]; [contradiction| |unfold len in L2; simpl in L2; lia].
      change (startswith ([x] ++ [c]) (py "-")) with ((x =? 45)%Z && true).
      destruct (x =? 45)%Z eqn:X; [|reflexivity].
      apply Z.eqb_eq in X. subst x. exfalso. apply Hm. reflexivity. }
    rewrite G. unfold drop_last. apply removelast_last.
Qed.

(** X12. Backspace undoes a digit: in a state that is neither just evaluated
    nor awaiting an operand, and whose text is not empty, a lone sign or
    "-0", a digit followed by a backspace gives back the text and leaves the
    accumulator and the operators alone. *)
Theorem backspace_undoes_digit :
  forall (st : State) (d : digit),
    just_evaluated st = false -> awaiting_operand st = false ->
    current st <> [] -> current st <> py "-" -> current st <> py "-0" ->
    exists st',
      run [EDigit d; EBackspace] st = Ok st' /\
      current st' = current st /\
      acc st' = acc st /\ operator st' = operator st /\
      last_operator st' = last_operator st /\
      last_operand st' = last_operand st.
Proof.
  intros st d Hj Ha Hn Hm H0. cbn [run handle].
  destruct (append_digit_result (digit_str d) st) as (sh & lb & E).
  rewrite (begin_entry_idle st Hj Ha) in E. rewrite E. cbn [bind].
  match goal with
  | |- context [backspace ?s1] =>
      destruct (backspace_result s1) as [[F _]|[_ (sh2 & lb2 & E2)]];
        [discriminate F|]
  end.
  rewrite E2. cbn [bind]. eexists. split; [reflexivity|].
  cbn [current acc operator last_operator last_operand].
  rewrite (erased_appended _ d Hn Hm H0).
  repeat (split; [reflexivity|]). reflexivity.
Qed.

Lemma backspace_undoes_digit_witness :
  just_evaluated state_12 = false /\ awaiting_operand state_12 = false /\
  current state_12 <> [] /\ current state_12 <> py "-" /\
  current state_12 <> py "-0" /\
  exists st',
    run [EDigit D7; EBackspace] state_12 = Ok st' /\
    current st' = current state_12 /\
    acc st' = acc state_12 /\ operator st' = operator state_12 /\
    last_operator st' = last_operator state_12 /\
    last_operand st' = last_operand state_12.
Proof.
  split; [reflexivity|]. split; [reflexivity|].
  split; [vm_compute; discriminate|]. split; [vm_compute; discriminate|].
  split; [vm_compute; discriminate|].
  apply (backspace_undoes_digit state_12 D7);
    try reflexivity; vm_compute; discriminate.
Defined.

Lemma erased_not_empty (s : pystr) : erased s <> [] /\ erased s <> py "-".
Proof.
  unfold erased.
  destruct ((len s <=? 1)%Z || ((len s =? 2)%Z && startswith s (py "-")))
    eqn:G; [split; vm_compute; discriminate|].
  apply orb_false_elim in G. destruct G as [G1 G2].
  apply Z.leb_gt in G1. unfold len in *.
  destruct s as [|x [|y t]]; simpl in G1; try lia.
  split.
  - unfold drop_last. simpl. destruct t; discriminate.
  - unfold drop_last. destruct t as [|z t'].
    + simpl. intros E. inversion E; subst.
      simpl in G2. discriminate G2.
    + simpl. destruct t'; discriminate.
Qed.

(** X13. Backspace never leaves the text empty nor a lone sign: whenever it
    edits (the state is not just evaluated) the text it leaves is neither ""
    nor "-". *)
Theorem backspace_never_empties :
  forall st : State,
    just_evaluated st = false ->
    exists st',
      backspace st = Ok st' /\ current st' <> [] /\ current st' <> py "-".
Proof.
  intros st Hj.
  destruct (backspace_result st) as [[F _]|[_ (sh & lb & E)]]; [congruence|].
  eexists. split; [exact E|]. cbn [current]. apply erased_not_empty.
Qed.

Lemma backspace_never_empties_witness :
  just_evaluated state_12 = false /\
  exists st',
    backspace state_12 = Ok st' /\ current st' <> [] /\ current st' <> py "-".
Proof.
  split; [reflexivity|].
  apply (backspace_never_empties state_12). reflexivity.
Defined.

(** ** Typing a number and reading it *)

Lemma run_digits (ds : list digit) :
  forall st : State,
    just_evaluated st = false -> awaiting_operand st = false ->
    exists st',
      run (map EDigit ds) st = Ok st' /\
      current st' = typed (current st) ds /\
      just_evaluated st' = false /\ awaiting_operand st' = false /\
      acc st' = acc st /\ operator st' = operator st /\
      last_operator st' = last_operator st /\
      last_operand st' = last_operand st.
Proof.
  induction ds as [|d ds IH]; intros st Hj Ha.
  - exists st. cbn [map run typed fold_left]. repeat split; auto.
  - cbn [map run handle].
    destruct (append_digit_result (digit_str d) st) as (sh & lb & E).
    rewrite (begin_entry_idle st Hj Ha) in E. rewrite E. cbn [bind].
    match goal with
    | |- context [run _ ?s1] =>
        destruct (IH s1 eq_refl eq_refl) as (st' & R & H)
    end.
    exists st'. split; [exact R|]. exact H.
Qed.

Lemma digits_value_snoc (s : pystr) (c : char) :
  digits_value (s ++ [c]) = (10 * digits_value s + (c - 48))%Z.
Proof. unfold digits_value. rewrite fold_left_app. reflexivity. Qed.

Lemma digit_str_value (d : digit) :
  digit_text (digit_str d) /\ digits_value (digit_str d) = digit_val d /\
  List.length (digit_str d) = 1%nat.
Proof.
  destruct d; (split; [split; [discriminate|repeat constructor]|]);
    split; reflexivity.
Qed.

Lemma digit_text_not_signed (s : pystr) : digit_text s -> str_eqb s (py "-0") = false.
Proof.
  intros [Hn Hd]. destruct s as [|c t]; [reflexivity|].
  inversion Hd as [|x y Hc Ht]; subst.
  change (str_eqb (c :: t) (py "-0")) with ((c =? 45)%Z && str_eqb t (py "0")).
  unfold is_digit in Hc. apply andb_prop in Hc. destruct Hc as [Hc _].
  apply Z.leb_le in Hc.
  destruct (c =? 45)%Z eqn:E; [apply Z.eqb_eq in E; lia | reflexivity].
Qed.

Lemma appended_digit_text (s : pystr) (d : digit) :
  digit_text s ->
  digit_text (appended s (digit_str d)) /\
  digits_value (appended s (digit_str d))
  = (10 * digits_value s + digit_val d)%Z /\
  (List.length (appended s (digit_str d)) <= List.length s + 1)%nat.
Proof.
  intros Hs. destruct (digit_str_value d) as ([Dn Dd] & Dv & Dl).
  unfold appended. rewrite (digit_text_not_signed s Hs). cbn [orb].
  destruct (str_eqb s (py "0")) eqn:Z.
  - apply str_eqb_eq in Z. subst s.
    change (startswith (py "0") (py "-")) with false. cbn [app].
    split; [split; assumption|]. split; [rewrite Dv; reflexivity|].
    rewrite Dl. vm_compute. lia.
  - destruct Hs as [Hn Hd].
    split; [split|split].
    + intros E. apply app_eq_nil in E. destruct E; contradiction.
    + apply Forall_app; split; assumption.
    + destruct d; apply digits_value_snoc.
    + rewrite length_app, Dl. lia.
Qed.

Lemma typed_digit_text (ds : list digit) :
  forall s,
    digit_text s ->
    digit_text (typed s ds) /\
    digits_value (typed s ds)
    = fold_left (fun a d => 10 * a + digit_val d)%Z ds (digits_value s) /\
    (List.length (typed s ds) <= List.length s + List.length ds)%nat.
Proof.
  induction ds as [|d ds IH]; intros s Hs; cbn [typed fold_left].
  - split; [exact Hs|]. split; [reflexivity|lia].
  - destruct (appended_digit_text s d Hs) as (H1 & H2 & H3).
    destruct (IH _ H1) as (K1 & K2 & K3).
    split; [exact K1|]. split.
    + unfold typed in K2. rewrite K2, H2. reflexivity.
    + unfold typed in K3. cbn [List.length]. lia.
Qed.

Lemma digit_not_space (c : char) :
  is_digit c = true -> char_in c c_spaces = false.
Proof.
  unfold is_digit. intros H. apply andb_prop in H. destruct H as [H1 H2].
  apply Z.leb_le in H1, H2. unfold char_in, c_spaces. cbn [existsb].
  repeat match goal with
         | |- context [(c =? ?k)%Z] =>
             replace (c =? k)%Z with false by (symmetry; apply Z.eqb_neq; lia)
         end.
  reflexivity.
Qed.

Lemma rstrip_none (chars s : pystr) :
  Forall (fun c => char_in c chars = false) s -> rstrip chars s = s.
Proof.
  induction 1 as [|c t Hc Ht IH]; [reflexivity|].
  cbn [rstrip]. rewrite IH. destruct t; [rewrite Hc|]; reflexivity.
Qed.

Lemma span_digits_all (s : pystr) :
  Forall (fun c => is_digit c = true) s -> span_digits s = (s, []).
Proof.
  induction 1 as [|c t Hc Ht IH]; [reflexivity|].
  cbn [span_digits]. rewrite Hc, IH. reflexivity.
Qed.

Lemma lstrip_length (chars s : pystr) : (len (lstrip chars s) <= len s)%Z.
Proof.
  unfold len. induction s as [|c t IH]; cbn [lstrip]; [lia|].
  destruct (char_in c chars); cbn [List.length]; lia.
Qed.

Lemma digits_ascii (s : pystr) :
  Forall (fun c => is_digit c = true) s ->
  forallb (fun c => (c <? 128)%Z) s = true /\ char_in 95 s = false.
Proof.
  induction 1 as [|c t Hc Ht [IH1 IH2]]; [split; reflexivity|].
  unfold is_digit in Hc. apply andb_prop in Hc. destruct Hc as [H1 H2].
  apply Z.leb_le in H1, H2. split.
  - cbn [forallb]. rewrite IH1.
    replace (c <? 128)%Z with true by (symmetry; apply Z.ltb_lt; lia).
    reflexivity.
  - unfold char_in in *. cbn [existsb]. rewrite IH2.
    replace (95 =? c)%Z with false by (symmetry; apply Z.eqb_neq; lia).
    reflexivity.
Qed.

Lemma digits_value_nonneg (s : pystr) :
  Forall (fun c => is_digit c = true) s -> (0 <= digits_value s)%Z.
Proof.
  unfold digits_value. intros H.
  assert (G : forall a, (0 <= a)%Z ->
              (0 <= fold_left (fun acc c => 10 * acc + (c - 48)) s a)%Z).
  { induction H as [|c t Hc Ht IH]; intros a Ha; cbn [fold_left]; [exact Ha|].
    apply IH. unfold is_digit in Hc. apply andb_prop in Hc.
    destruct Hc as [H1 _]. apply Z.leb_le in H1. lia. }
  apply G. lia.
Qed.

Lemma float_of_decimal_integer (n : Z) :
  (0 <= n)%Z -> float_of_decimal false n 0 = float_of_Z n.
Proof.
  intros Hn. unfold float_of_decimal, float_of_Z, binary_normalize.
  destruct n as [|p|p]; [reflexivity| |lia].
  change (Z.pos p =? 0)%Z with false. change (0 <=? 0)%Z with true.
  cbv iota. rewrite Z.mul_1_r. reflexivity.
Qed.

(** [float] of a text of digits is the nearest binary64 to the number the
    digits write. *)
Lemma pyfloat_digit_text (s : pystr) :
  digit_text s -> (len s <= MAX_DIGITS)%Z ->
  pyfloat s = Ok (float_of_Z (digits_value s)).
Proof.
  intros [Hn Hd] Hl.
  destruct (digits_ascii s Hd) as [A U].
  assert (Sp : Forall (fun c => char_in c c_spaces = false) s).
  { eapply Forall_impl; [|exact Hd]. intros c; apply digit_not_space. }
  unfold pyfloat, transform_decimal_and_space. rewrite A.
  assert (L : lstrip c_spaces s = s).
  { destruct s as [|c t]; [reflexivity|].
    inversion Sp as [|x y Hc Ht]; subst. cbn [lstrip]. rewrite Hc.
    reflexivity. }
  rewrite L, (rstrip_none _ _ Sp), U.
  unfold float_from_string_inner, strtod.
  assert (T : take_sign s = (false, s)).
  { destruct s as [|c t]; [reflexivity|].
    inversion Hd as [|x y Hc Ht]; subst. unfold take_sign.
    unfold is_digit in Hc. apply andb_prop in Hc. destruct Hc as [H1 H2].
    apply Z.leb_le in H1, H2.
    replace (c =? 45)%Z with false by (symmetry; apply Z.eqb_neq; lia).
    replace (c =? 43)%Z with false by (symmetry; apply Z.eqb_neq; lia).
    reflexivity. }
  rewrite T, (span_digits_all s Hd).
  cbn [take_fraction take_exponent]. rewrite app_nil_r.
  destruct s as [|c t] eqn:Es; [contradiction|]. rewrite <- Es in *.
  assert (M : (MAX_DIGITS <? len (lstrip (py "0") s))%Z = false).
  { apply Z.ltb_ge. pose proof (lstrip_length (py "0") s). lia. }
  rewrite M. change (MAX_DIGITS <? len [])%Z with false. cbn [orb].
  change (0 - len [])%Z with 0%Z.
  rewrite float_of_decimal_integer by (apply digits_value_nonneg, Hd).
  reflexivity.
Qed.

Lemma begin_entry_zero (st : State) :
  (just_evaluated st = true /\ operator st = None) \/
  awaiting_operand st = true \/ current st = py "0" ->
  current (begin_entry st) = py "0".
Proof.
  unfold begin_entry.
  destruct st as [a c o lo ld je aw hi dv ba]; cbn [just_evaluated operator
    awaiting_operand current].
  intros [[-> ->]|[->| ->]].
  - reflexivity.
  - destruct (je && is_none o); reflexivity.
  - destruct (je && is_none o); [reflexivity|]. destruct aw; reflexivity.
Qed.

(** X14. Typing a number and reading it back: when the next digit starts a
    number (after a result, after an operator, or on "0"), typing the digits
    [d :: ds] leaves a text that [float] reads as the binary64 nearest to the
    number these digits write, leading zeros included, as long as there are
    no more digits than [float] accepts. *)
Theorem typed_number_is_read :
  forall (st : State) (d : digit) (ds : list digit),
    (just_evaluated st = true /\ operator st = None) \/
    awaiting_operand st = true \/ current st = py "0" ->
    (Z.of_nat (List.length (d :: ds)) <= MAX_DIGITS)%Z ->
    exists st',
      run (map EDigit (d :: ds)) st = Ok st' /\
      pyfloat (current st') = Ok (float_of_Z (number_of (d :: ds))).
Proof.
  intros st d ds Hs Hl. cbn [map run handle].
  destruct (append_digit_result (digit_str d) st) as (sh & lb & E).
  rewrite (begin_entry_zero st Hs), appended_zero in E.
  rewrite E. cbn [bind].
  match goal with
  | |- context [run _ ?s1] =>
      destruct (run_digits ds s1 eq_refl eq_refl) as (st' & R & C & _)
  end.
  exists st'. split; [exact R|]. rewrite C. cbn [current].
  destruct (digit_str_value d) as (Dt & Dv & Dl).
  destruct (typed_digit_text ds (digit_str d) Dt) as (T1 & T2 & T3).
  rewrite pyfloat_digit_text; [|exact T1|].
  - rewrite T2, Dv. reflexivity.
  - unfold len. rewrite Dl in T3. cbn [List.length] in Hl. lia.
Qed.

Lemma typed_number_is_read_witness :
  ((just_evaluated state_2_plus = true /\ operator state_2_plus = None) \/
   awaiting_operand state_2_plus = true \/ current state_2_plus = py "0") /\
  (Z.of_nat (List.length [D0; D4; D2]) <= MAX_DIGITS)%Z /\
  exists st',
    run (map EDigit [D0; D4; D2]) state_2_plus = Ok st' /\
    pyfloat (current st') = Ok (float_of_Z (number_of [D0; D4; D2])).
Proof.
  split; [right; left; reflexivity|].
  split; [vm_compute; discriminate|].
  apply (typed_number_is_read state_2_plus D0 [D4; D2]);
    [right; left; reflexivity | vm_compute; discriminate].
Defined.

(** ** Arithmetic *)

Lemma SFadd_comm (x y : float) : SFadd prec emax x y = SFadd prec emax y x.
Proof.
  destruct x as [sx|sx| |sx mx ex], y as [sy|sy| |sy my ey];
    try reflexivity.
  - destruct sx, sy; reflexivity.
  - destruct sx, sy; reflexivity.
  - unfold SFadd. rewrite (Z.min_comm ex ey). f_equal. apply Z.add_comm.
Qed.

Lemma SFmul_comm (x y : float) : SFmul prec emax x y = SFmul prec emax y x.
Proof.
  destruct x as [sx|sx| |sx mx ex], y as [sy|sy| |sy my ey];
    try reflexivity; unfold SFmul;
    try (rewrite (xorb_comm sx sy); reflexivity).
  rewrite (xorb_comm sx sy), (Pos.mul_comm mx my), (Z.add_comm ex ey).
  reflexivity.
Qed.

(** X15. On the calculator [a + b] and [b + a] are the same value, and so
    are [a * b] and [b * a], for all floats: infinities, signed zeros and
    the undefined value included. *)
Theorem add_and_multiply_commute :
  forall a b : float,
    _apply_operator a b (py "+") = _apply_operator b a (py "+") /\
    _apply_operator a b (py "*") = _apply_operator b a (py "*").
Proof.
  intros a b. split.
  - change (_apply_operator a b (py "+")) with (@Ok float (float_add a b)).
    change (_apply_operator b a (py "+")) with (@Ok float (float_add b a)).
    unfold float_add. rewrite SFadd_comm. reflexivity.
  - change (_apply_operator a b (py "*")) with (@Ok float (float_mul a b)).
    change (_apply_operator b a (py "*")) with (@Ok float (float_mul b a)).
    unfold float_mul. rewrite SFmul_comm. reflexivity.
Qed.

(** ** The current input is never empty *)

Lemma rstrip_keep (chars pre suf : pystr) (x : char) :
  char_in x chars = false ->
  rstrip chars (pre ++ x :: suf) = pre ++ x :: rstrip chars suf.
Proof.
  intros Hx. induction pre as [|a pre IH].
  - cbn [app rstrip]. destruct (rstrip chars suf); [rewrite Hx|]; reflexivity.
  - cbn [app rstrip]. rewrite IH.
    destruct pre; reflexivity.
Qed.

Lemma numeral_start_well (s : pystr) :
  numeral_start s -> well_started s = true.
Proof.
  intros (b & c & r & -> & Hc).
  unfold is_digit in Hc. apply andb_prop in Hc. destruct Hc as [H1 H2].
  apply Z.leb_le in H1, H2.
  destruct b; cbn [sign_str app].
  - change (py "-" ++ c :: r) with (45%Z :: c :: r). cbn [well_started].
    change (45 =? 45)%Z with true. cbv iota.
    replace (c =? 45)%Z with false by (symmetry; apply Z.eqb_neq; lia).
    reflexivity.
  - cbn [well_started].
    replace (c =? 45)%Z with false by (symmetry; apply Z.eqb_neq; lia).
    reflexivity.
Qed.

Lemma sign_no_point (b : bool) : ~ In 46%Z (sign_str b).
Proof.
  destruct b;
    [change (sign_str true) with [45%Z]; intros [H|[]]; discriminate H
    | intros []].
Qed.

(** The two strips of [_format_number] keep the start of a numeral that has
    a point. *)
Lemma numeral_start_strip (s : pystr) :
  numeral_start s -> In 46%Z s ->
  numeral_start (rstrip (py ".") (rstrip (py "0") s)).
Proof.
  intros (b & c & r & -> & Hc) Hin.
  assert (Hr : In 46%Z r).
  { apply in_app_or in Hin. destruct Hin as [Hin|[Hin|Hin]].
    - destruct (sign_no_point b Hin).
    - subst c. discriminate Hc.
    - exact Hin. }
  apply in_split in Hr. destruct Hr as (r1 & r2 & ->).
  replace (sign_str b ++ c :: r1 ++ 46%Z :: r2)
    with ((sign_str b ++ c :: r1) ++ 46%Z :: r2)
    by (rewrite <- app_assoc; reflexivity).
  rewrite rstrip_keep by reflexivity.
  rewrite <- app_assoc. cbn [app].
  rewrite (rstrip_keep (py ".") (sign_str b) _ c).
  - exists b, c. eexists. split; [reflexivity|exact Hc].
  - unfold is_digit in Hc. apply andb_prop in Hc. destruct Hc as [H1 H2].
    apply Z.leb_le in H1, H2. unfold char_in. change (py ".") with [46%Z].
    cbn [existsb]. 
    replace (c =? 46)%Z with false by (symmetry; apply Z.eqb_neq; lia).
    reflexivity.
Qed.

Lemma digits_acc_nonempty (fuel : nat) :
  forall n acc, acc <> [] -> digits_acc fuel n acc <> [].
Proof.
  induction fuel as [|f IH]; intros n acc H; cbn [digits_acc]; [exact H|].
  destruct (n <? 10)%Z; [discriminate|]. apply IH. discriminate.
Qed.

Lemma decimal_nonempty (n : Z) : decimal n <> [].
Proof.
  unfold decimal. cbn [digits_acc].
  destruct (n <? 10)%Z; [discriminate|]. apply digits_acc_nonempty. discriminate.
Qed.

Lemma zfill_nonempty (w : Z) (s : pystr) : s <> [] -> zfill w s <> [].
Proof.
  intros H E. unfold zfill in E. apply app_eq_nil in E.
  destruct E; contradiction.
Qed.

(** A non-empty text of digits starts with a digit. *)
Lemma digits_head (s : pystr) :
  s <> [] -> Forall (fun c => is_digit c = true) s ->
  exists c r, s = c :: r /\ is_digit c = true.
Proof.
  intros Hn Hd. destruct s as [|c r]; [contradiction|].
  inversion Hd; subst. eauto.
Qed.

Lemma float_digits_head (P : Z) (v : float) :
  exists c r, fst (float_digits P v) = c :: r /\ is_digit c = true.
Proof.
  apply digits_head.
  - unfold float_digits. destruct v as [s|s| |s m e]; cbn [fst];
      try (apply zfill_nonempty, decimal_nonempty).
    destruct (sig_digits P (ratio_of_finite m e)); cbn [fst].
    apply zfill_nonempty, decimal_nonempty.
  - apply (float_digits_chars (fun c => is_digit c = true)). auto.
Qed.

Lemma numeral_start_fmt_e (p : Z) (v : float) :
  is_finite v = true -> numeral_start (fmt_e p v).
Proof.
  intros F. unfold fmt_e. rewrite F.
  destruct (float_digits_head (p + 1) v) as (c & r & E & Hc).
  destruct (float_digits (p + 1) v) as [ds X]; cbn [fst] in E. subst ds.
  exists (float_sign v), c. eexists. split; [|exact Hc].
  cbn [firstn app]. reflexivity.
Qed.

Lemma numeral_start_fmt_f (p : Z) (v : float) :
  is_finite v = true -> numeral_start (fmt_f p v).
Proof.
  intros F. unfold fmt_f. rewrite F.
  match goal with
  | |- context [decimal ?n] =>
      destruct (digits_head (decimal n) (decimal_nonempty n)
                  (decimal_chars (fun c => is_digit c = true)
                     (fun c H => H) n)) as (c & r & E & Hc);
        rewrite E
  end.
  exists (float_sign v), c. eexists. split; [|exact Hc].
  cbn [app]. reflexivity.
Qed.

Lemma numeral_start_fmt_g (p : Z) (v : float) :
  is_finite v = true -> numeral_start (fmt_g p v).
Proof.
  intros F. unfold fmt_g. rewrite F.
  set (P := if (p =? 0)%Z then 1%Z else p).
  destruct (float_digits_head P v) as (c & r & E & Hc).
  destruct (float_digits P v) as [ds X]; cbn [fst] in E. subst ds.
  destruct ((-4 <=? X)%Z && (X <? P)%Z).
  - destruct (X <? 0)%Z eqn:N.
    + exists (float_sign v), 48%Z. eexists. split; [|reflexivity].
      change (py "0") with [48%Z]. cbn [app]. reflexivity.
    + apply Z.ltb_ge in N.
      destruct (Z.to_nat (X + 1)) as [|k] eqn:K; [lia|].
      exists (float_sign v), c. eexists. split; [|exact Hc].
      cbn [firstn app]. reflexivity.
  - exists (float_sign v), c. eexists. split; [|exact Hc].
    cbn [firstn app]. reflexivity.
Qed.

Lemma fmt_f_has_point (v : float) :
  is_finite v = true -> In 46%Z (fmt_f 12 v).
Proof.
  intros F. unfold fmt_f. rewrite F.
  change (0 <? 12)%Z with true. cbv iota.
  apply in_or_app. right. apply in_or_app. right.
  change (py ".") with [46%Z]. left. reflexivity.
Qed.

Lemma char_in_In (c : char) (s : pystr) : char_in c s = true -> In c s.
Proof.
  unfold char_in. intros H. apply existsb_exists in H.
  destruct H as (x & Hx & E). apply Z.eqb_eq in E. subst. exact Hx.
Qed.

(** Whatever the value, [_format_number] returns a text that starts well. *)
Lemma format_number_well_started (v : float) :
  well_started (_format_number v) = true.
Proof.
  destruct (is_finite v) eqn:F.
  - apply numeral_start_well.
    unfold _format_number. rewrite (finite_not_caught v F).
    set (s1 := if char_in 101 (fmt_g 12 v) || char_in 69 (fmt_g 12 v)
               then rstrip (py ".") (rstrip (py "0") (fmt_f 12 v))
               else fmt_g 12 v).
    assert (H1 : numeral_start s1).
    { unfold s1.
      destruct (char_in 101 (fmt_g 12 v) || char_in 69 (fmt_g 12 v)).
      - apply numeral_start_strip;
          [apply numeral_start_fmt_f, F | apply fmt_f_has_point, F].
      - apply numeral_start_fmt_g, F. }
    destruct (char_in 46 s1) eqn:D.
    + destruct (12 <? len (rstrip (py ".") (rstrip (py "0") s1)))%Z;
        [apply numeral_start_fmt_e, F|].
      apply numeral_start_strip; [exact H1 | apply char_in_In, D].
    + destruct (12 <? len s1)%Z; [apply numeral_start_fmt_e, F | exact H1].
  - destruct v as [s|[|]| |s m e]; try discriminate F; reflexivity.
Qed.

Lemma well_started_app (s t : pystr) :
  well_started s = true -> well_started (s ++ t) = true.
Proof.
  destruct s as [|c [|d r]]; cbn [well_started app]; try discriminate.
  - destruct (c =? 45)%Z; [discriminate|reflexivity].
  - intros H; exact H.
Qed.

Lemma well_started_appended (s : pystr) (d : digit) :
  well_started s = true -> well_started (appended s (digit_str d)) = true.
Proof.
  intros H. unfold appended.
  destruct (str_eqb s (py "-0") || str_eqb s (py "0")).
  - destruct (startswith s (py "-")); destruct d; reflexivity.
  - apply well_started_app, H.
Qed.

Lemma well_started_toggled (s : pystr) :
  well_started s = true -> well_started (toggled s) = true.
Proof.
  intros H. unfold toggled. rewrite (startswith_minus s).
  destruct s as [|c t]; [discriminate H|].
  cbn [well_started] in H.
  destruct (c =? 45)%Z eqn:C.
  - destruct t as [|d r]; [discriminate H|].
    cbn [drop_first tl well_started].
    apply negb_true_iff in H. rewrite H. reflexivity.
  - destruct (negb (str_eqb (c :: t) (py "0"))).
    + change (py "-" ++ c :: t) with (45%Z :: c :: t).
      cbn [well_started]. change (45 =? 45)%Z with true. cbv iota.
      rewrite C. reflexivity.
    + cbn [well_started]. rewrite C. reflexivity.
Qed.

Lemma well_started_erased (s : pystr) :
  well_started s = true -> well_started (erased s) = true.
Proof.
  intros H. unfold erased. rewrite (startswith_minus s).
  destruct s as [|c [|d [|e r]]]; try reflexivity.
  - (* two characters *)
    change (len [c; d]) with 2%Z.
    change (2 <=? 1)%Z with false. change (2 =? 2)%Z with true.
    cbn [orb andb]. cbn [well_started] in H.
    destruct (c =? 45)%Z eqn:C; [reflexivity|].
    cbn [drop_last removelast well_started]. rewrite C. reflexivity.
  - (* three or more *)
    assert (L : ((len (c :: d :: e :: r) <=? 1)%Z
                 || ((len (c :: d :: e :: r) =? 2)%Z && (c =? 45)%Z)) = false).
    { unfold len. cbn [List.length].
      replace (Z.of_nat (S (S (S (List.length r)))) <=? 1)%Z with false
        by (symmetry; apply Z.leb_gt; lia).
      replace (Z.of_nat (S (S (S (List.length r)))) =? 2)%Z with false
        by (symmetry; apply Z.eqb_neq; lia).
      reflexivity. }
    rewrite L. cbn [well_started] in H.
    unfold drop_last. cbn [removelast]. cbn [well_started].
    destruct (c =? 45)%Z; [exact H|reflexivity].
Qed.

Lemma well_started_begin_entry (st : State) :
  well_started (current st) = true ->
  well_started (current (begin_entry st)) = true.
Proof.
  intros H. destruct (begin_entry_current st) as [-> | ->];
    [exact H | reflexivity].
Qed.

Lemma reachable_well_started (st : State) :
  reachable st -> well_started (current st) = true.
Proof.
  induction 1 as [|st ev st' Hr IH H]; [reflexivity|].
  destruct ev; cbn [handle] in H.
  - destruct (append_digit_result (digit_str d) st) as (sh & lb & E).
    rewrite E in H; inversion H; subst; cbn [current].
    apply well_started_appended, well_started_begin_entry, IH.
  - destruct (input_dot_result st) as [[_ E]|[_ (sh & lb & E)]];
      rewrite E in H; inversion H; subst; cbn [current].
    + apply well_started_begin_entry, IH.
    + apply well_started_app, well_started_begin_entry, IH.
  - destruct (toggle_sign_result st) as (hi & sh & lb & E).
    rewrite E in H; inversion H; subst; cbn [current].
    apply well_started_toggled, IH.
  - pose proof (percent_result st) as E.
    destruct (pyfloat (replace_char 44 46 (current st))) as [cur|e].
    + destruct E as (sh & lb & E).
      rewrite E in H; inversion H; subst; cbn [current].
      apply format_number_well_started.
    + rewrite E in H; inversion H; subst. exact IH.
  - destruct (set_operator_result (op_str o) st) as (v & sh & lb & _ & E).
    rewrite E in H; inversion H; subst; cbn [current]. exact IH.
  - destruct (equals_result st) as (r & sh & lb & _ & E).
    rewrite E in H; inversion H; subst; cbn [current].
    apply format_number_well_started.
  - destruct (has_input st || just_evaluated st) eqn:C.
    + destruct (clear_entry_result st C) as (sh & lb & E).
      rewrite E in H; inversion H; subst; cbn [current]. reflexivity.
    + destruct (clear_all_result st C) as (sh & lb & E).
      rewrite E in H; inversion H; subst; cbn [current]. exact IH.
  - destruct (backspace_result st) as [[_ E]|[_ (sh & lb & E)]];
      rewrite E in H; inversion H; subst; cbn [current].
    + exact IH.
    + apply well_started_erased, IH.
Qed.

(** X16. In every reachable state the current input is not empty and is not
    a lone sign, and it does not start with two signs: the edits
    ([toggle_sign], [backspace], the digits and the point) and the results
    that [_format_number] writes all keep a character after the sign. *)
Theorem current_never_empty :
  forall st : State,
    reachable st ->
    current st <> [] /\ current st <> py "-" /\
    startswith (current st) (py "--") = false.
Proof.
  intros st Hr. pose proof (reachable_well_started st Hr) as W.
  destruct (current st) as [|c [|d r]]; cbn [well_started] in W.
  - discriminate W.
  - split; [discriminate|].
    split; [|rewrite startswith_two_minus; apply andb_false_r].
    intros E. inversion E; subst. discriminate W.
  - split; [discriminate|]. split; [discriminate|].
    rewrite startswith_two_minus, (startswith_minus (d :: r)).
    destruct (c =? 45)%Z; [|reflexivity].
    apply negb_true_iff in W. rewrite W. reflexivity.
Qed.

Lemma current_never_empty_witness :
  reachable state_error_toggled /\
  current state_error_toggled <> [] /\
  current state_error_toggled <> py "-" /\
  startswith (current state_error_toggled) (py "--") = false.
Proof.
  split;
    [exact (reachable_run _ _ _ reachable_initial state_error_toggled_run)|].
  apply (current_never_empty state_error_toggled).
  exact (reachable_run _ _ _ reachable_initial state_error_toggled_run).
Defined.

(** ** The window: buttons and keys *)

(** X17. The nineteen buttons tile the grid below the display: every cell
    of rows 1 to 5 and columns 0 to 3 is covered by exactly one button (the
    0 button covering two), so no two buttons overlap and no cell is left
    without one. *)
Theorem buttons_tile_grid :
  forall r c : Z,
    (1 <= r <= 5)%Z -> (0 <= c <= 3)%Z ->
    List.length (filter (covers r c) buttons) = 1%nat.
Proof.
  intros r c Hr Hc.
  assert (R : (r = 1 \/ r = 2 \/ r = 3 \/ r = 4 \/ r = 5)%Z) by lia.
  assert (C : (c = 0 \/ c = 1 \/ c = 2 \/ c = 3)%Z) by lia.
  destruct R as [->|[->|[->|[->| ->]]]];
    destruct C as [->|[->|[->| ->]]]; vm_compute; reflexivity.
Qed.

Lemma buttons_tile_grid_witness :
  (1 <= 5 <= 5)%Z /\ (0 <= 1 <= 3)%Z /\
  List.length (filter (covers 5 1) buttons) = 1%nat.
Proof.
  split; [lia|]. split; [lia|].
  apply (buttons_tile_grid 5 1); lia.
Defined.

(** X18. The keyboard mirrors the buttons: a key whose name is the text of
    a button is bound to the handler of that button; every button but +/-
    and % has a key bound to its handler; and backspace, which no button
    offers, is on the keyboard. *)
Theorem keys_mirror_buttons :
  (forall (key : pystr) (ev : event) (b : button),
      In (key, ev) key_bindings -> In b buttons -> btn_text b = key ->
      btn_cmd b = ev) /\
  (forall b : button,
      In b buttons -> btn_cmd b <> EToggleSign -> btn_cmd b <> EPercent ->
      exists key, In (key, btn_cmd b) key_bindings) /\
  (exists key, In (key, EBackspace) key_bindings) /\
  (forall b : button, In b buttons -> btn_cmd b <> EBackspace).
Proof.
  split; [|split; [|split]].
  - intros key ev b Hk Hb Ht.
    unfold buttons in Hb. cbn [In] in Hb.
    unfold key_bindings in Hk. cbn [In] in Hk.
    repeat (destruct Hb as [Hb|Hb]); try contradiction;
      subst b; cbn [btn_text btn_cmd] in *; subst key;
      repeat (destruct Hk as [Hk|Hk]); try contradiction;
      vm_compute in Hk;
      solve [discriminate Hk | inversion Hk; reflexivity].
  - intros b Hb H1 H2.
    unfold buttons in Hb. cbn [In] in Hb.
    repeat (destruct Hb as [Hb|Hb]); try contradiction;
      subst b; cbn [btn_cmd] in *;
      try (exfalso; apply H1; reflexivity);
      try (exfalso; apply H2; reflexivity);
      eexists; unfold key_bindings; cbn [In];
      repeat first [left; reflexivity | right].
  - exists (py "<BackSpace>"). unfold key_bindings. cbn [In].
    repeat first [left; reflexivity | right].
  - intros b Hb. unfold buttons in Hb. cbn [In] in Hb.
    repeat (destruct Hb as [Hb|Hb]); try contradiction;
      subst b; discriminate.
Qed.

Lemma keys_mirror_buttons_witness :
  In (py "+", EOperator Add) key_bindings /\
  In (mkButton (py "+") 4 3 1 color_op (EOperator Add)) buttons /\
  btn_text (mkButton (py "+") 4 3 1 color_op (EOperator Add)) = py "+" /\
  btn_cmd (mkButton (py "+") 4 3 1 color_op (EOperator Add)) = EOperator Add.
Proof.
  assert (K : In (py "+", EOperator Add) key_bindings).
  { unfold key_bindings. cbn [In]. repeat first [left; reflexivity | right]. }
  assert (B : In (mkButton (py "+") 4 3 1 color_op (EOperator Add)) buttons).
  { unfold buttons. cbn [In]. repeat first [left; reflexivity | right]. }
  split; [exact K|]. split; [exact B|]. split; [reflexivity|].
  exact (proj1 keys_mirror_buttons _ _ _ K B eq_refl).
Defined.

(** ** More on typing *)

Lemma char_in_snoc (c : char) (s : pystr) : char_in c (s ++ [c]) = true.
Proof.
  unfold char_in. rewrite existsb_app. cbn [existsb].
  rewrite Z.eqb_refl. rewrite orb_true_r. reflexivity.
Qed.

(** X19. The point is idempotent: a second press right after the first is
    ignored, in every state. *)
Theorem point_twice_is_point :
  forall st : State, run [EPoint; EPoint] st = run [EPoint] st.
Proof.
  intros st. cbn [run handle].
  destruct (begin_entry_flags st) as [Fj Fa].
  destruct (input_dot_result st) as [[D E]|[D (sh & lb & E)]];
    rewrite E; cbn [bind].
  - unfold input_dot.
    rewrite (begin_entry_idle (begin_entry st) Fj Fa), D. reflexivity.
  - unfold input_dot.
    match goal with
    | |- context [begin_entry ?s1] =>
        rewrite (begin_entry_idle s1 eq_refl eq_refl)
    end.
    cbn [current]. change (py ".") with [46%Z].
    rewrite char_in_snoc. reflexivity.
Qed.

Lemma appended_no_leading_zero (s : pystr) (d : digit) :
  s = py "0" \/ (exists c r, s = c :: r /\ c <> 48%Z) ->
  appended s (digit_str d) = py "0" \/
  (exists c r, appended s (digit_str d) = c :: r /\ c <> 48%Z).
Proof.
  intros [->|(c & r & -> & Hc)].
  - rewrite appended_zero.
    destruct d; [left; reflexivity|right; eexists; eexists; split;
                 [reflexivity|vm_compute; discriminate] ..].
  - unfold appended.
    destruct (str_eqb (c :: r) (py "-0") || str_eqb (c :: r) (py "0")) eqn:E.
    + rewrite (startswith_minus (c :: r)).
      destruct (c =? 45)%Z.
      * right. exists 45%Z. eexists. split; [reflexivity|discriminate].
      * cbn [app].
        destruct d; [left; reflexivity|right; eexists; eexists; split;
                     [reflexivity|vm_compute; discriminate] ..].
    + right. exists c. eexists. split; [reflexivity|exact Hc].
Qed.

Lemma typed_no_leading_zero (ds : list digit) :
  forall s,
    s = py "0" \/ (exists c r, s = c :: r /\ c <> 48%Z) ->
    typed s ds = py "0" \/ (exists c r, typed s ds = c :: r /\ c <> 48%Z).
Proof.
  induction ds as [|d ds IH]; intros s H; cbn [typed fold_left]; [exact H|].
  apply IH, appended_no_leading_zero, H.
Qed.

(** X20. Digits never pile up leading zeros: when a number is started (after
    a result, after an operator, or on "0") and only digits are typed, the
    text is "0" or starts with a character other than the digit zero. *)
Theorem no_leading_zeros :
  forall (st : State) (ds : list digit),
    (just_evaluated st = true /\ operator st = None) \/
    awaiting_operand st = true \/ current st = py "0" ->
    ds <> [] ->
    exists st',
      run (map EDigit ds) st = Ok st' /\
      (current st' = py "0" \/
       exists c r, current st' = c :: r /\ c <> 48%Z).
Proof.
  intros st [|d ds] Hs Hn; [contradiction|]. cbn [map run handle].
  destruct (append_digit_result (digit_str d) st) as (sh & lb & E).
  rewrite (begin_entry_zero st Hs) in E. rewrite E. cbn [bind].
  match goal with
  | |- context [run _ ?s1] =>
      destruct (run_digits ds s1 eq_refl eq_refl) as (st' & R & C & _)
  end.
  exists st'. split; [exact R|]. rewrite C. cbn [current].
  apply typed_no_leading_zero, appended_no_leading_zero. left; reflexivity.
Qed.

Lemma no_leading_zeros_witness :
  ((just_evaluated initial = true /\ operator initial = None) \/
   awaiting_operand initial = true \/ current initial = py "0") /\
  [D0; D0; D7] <> [] /\
  exists st',
    run (map EDigit [D0; D0; D7]) initial = Ok st' /\
    (current st' = py "0" \/
     exists c r, current st' = c :: r /\ c <> 48%Z).
Proof.
  split; [right; right; reflexivity|]. split; [discriminate|].
  apply (no_leading_zeros initial [D0; D0; D7]);
    [right; right; reflexivity | discriminate].
Defined.
